(** * Weather-App: data acquisition, caching and cache eviction

    A shallow embedding of the data path of [app.py]:
    [get_weather_data], [cleanup_old_data_files], the module-level
    load-or-fetch block and the load-or-fetch prefixes of the two callbacks
    [update_dashboard] and [update_hourly_graphs].

    Modelling conventions.
    - Python [str] is [string] (file names are ASCII); [int] is [Z]; a
      [datetime.date] is the
      record of its year, month and day, compared as CPython compares dates
      (the tuple order on year, month, day).
    - Python floats are idealised as exact rationals ([Q]): [np.round(x, 2)]
      is rounding of [100 x] to the nearest integer (ties to even) over 100,
      [np.random.uniform(lo, hi)] is [lo + (hi - lo) u] for a raw draw [u].
    - The working directory is a finite map from file names to the table
      stored under that name.
    - A raised exception is a value of [exn]; code that may raise lives in
      the state-and-error monad [M]. *)

From Stdlib Require Import ZArith QArith Qround Lqa Lia Ascii String List.
From stdpp Require Import gmap strings list fin_maps.

Local Open Scope Z_scope.

(** ** Exceptions and results *)

Inductive exn : Type :=
| ProviderError      (* anything [openmeteo.weather_api] raises *)
| IndexError
| AttributeError
| ValueError
| ZeroDivisionError
| OverflowError
| FileNotFoundError
| UnboundLocalError.

Inductive py_result (A : Type) : Type :=
| Return (a : A)
| Raise (e : exn).
Arguments Return {A} a.
Arguments Raise {A} e.

Definition returns {A} (r : py_result A) : Prop :=
  match r with Return _ => True | Raise _ => False end.

Definition raises {A} (r : py_result A) : Prop :=
  match r with Return _ => False | Raise _ => True end.

(** ** Calendar dates ([datetime.date]) *)

Module Date.

Record date : Type := mkdate { year : Z; month : Z; day : Z }.

Definition eqb (a b : date) : bool :=
  (year a =? year b) && (month a =? month b) && (day a =? day b).

(** [date.__lt__]: comparison of the (year, month, day) tuples. *)
Definition ltb (a b : date) : bool :=
  (year a <? year b)
  || ((year a =? year b)
      && ((month a <? month b)
          || ((month a =? month b) && (day a <? day b)))).

Definition lt (a b : date) : Prop := ltb a b = true.
Definition le (a b : date) : Prop := ltb b a = false.

Definition is_leap (y : Z) : bool :=
  (y mod 4 =? 0) && (negb (y mod 100 =? 0) || (y mod 400 =? 0)).

Definition DAYS_IN_MONTH (m : Z) : Z :=
  match m with
  | 1 => 31 | 2 => 28 | 3 => 31 | 4 => 30 | 5 => 31 | 6 => 30
  | 7 => 31 | 8 => 31 | 9 => 30 | 10 => 31 | 11 => 30 | 12 => 31
  | _ => -1
  end.

Definition DAYS_BEFORE_MONTH (m : Z) : Z :=
  match m with
  | 1 => 0 | 2 => 31 | 3 => 59 | 4 => 90 | 5 => 120 | 6 => 151
  | 7 => 181 | 8 => 212 | 9 => 243 | 10 => 273 | 11 => 304 | 12 => 334
  | _ => -1
  end.

Definition days_in_month (y m : Z) : Z :=
  if (m =? 2) && is_leap y then 29 else DAYS_IN_MONTH m.

Definition days_before_year (y : Z) : Z :=
  let y' := y - 1 in y' * 365 + y' / 4 - y' / 100 + y' / 400.

Definition days_before_month (y m : Z) : Z :=
  DAYS_BEFORE_MONTH m + (if (2 <? m) && is_leap y then 1 else 0).

Definition MINYEAR : Z := 1.
Definition MAXYEAR : Z := 9999.
Definition MAXORDINAL : Z := 3652059.

(** The check of the [date] constructor. *)
Definition valid_ymd (y m d : Z) : bool :=
  (MINYEAR <=? y) && (y <=? MAXYEAR) && (1 <=? m) && (m <=? 12)
  && (1 <=? d) && (d <=? days_in_month y m).

Definition valid (a : date) : Prop := valid_ymd (year a) (month a) (day a) = true.

Definition toordinal (a : date) : Z :=
  days_before_year (year a) + days_before_month (year a) (month a) + day a.

Definition DI400Y : Z := 146097.
Definition DI100Y : Z := 36524.
Definition DI4Y : Z := 1461.

(** The month and day of the day numbered [n] (from 0) of a year: the last
    step of [_ord2ymd]. *)
Definition month_day (leapyear : bool) (n : Z) : Z * Z :=
  let m := Z.shiftr (n + 50) 5 in
  let preceding :=
    DAYS_BEFORE_MONTH m + (if (2 <? m) && leapyear then 1 else 0) in
  if n <? preceding then
    let m' := m - 1 in
    let preceding' :=
      preceding
      - (DAYS_IN_MONTH m' + (if (m' =? 2) && leapyear then 1 else 0)) in
    (m', n - preceding' + 1)
  else (m, n - preceding + 1).

(** [_ord2ymd] of CPython's [datetime]. *)
Definition fromordinal (n : Z) : date :=
  let n := n - 1 in
  let n400 := n / DI400Y in let n := n mod DI400Y in
  let y := n400 * 400 + 1 in
  let n100 := n / DI100Y in let n := n mod DI100Y in
  let n4 := n / DI4Y in let n := n mod DI4Y in
  let n1 := n / 365 in let n := n mod 365 in
  let y := y + n100 * 100 + n4 * 4 + n1 in
  if (n1 =? 4) || (n100 =? 4) then mkdate (y - 1) 12 31
  else
    let leapyear := (n1 =? 3) && (negb (n4 =? 24) || (n100 =? 3)) in
    let md := month_day leapyear n in
    mkdate y md.1 md.2.

(** [d + timedelta(days=k)]: raises [OverflowError] outside the supported
    range of ordinals. *)
Definition add_days (a : date) (k : Z) : py_result date :=
  let o := toordinal a + k in
  if (0 <? o) && (o <=? MAXORDINAL) then Return (fromordinal o)
  else Raise OverflowError.

(** The calendar day of a POSIX timestamp read in UTC
    ([pd.to_datetime(t, unit="s", utc=True)] followed by [.date]). *)
Definition EPOCH_ORDINAL : Z := 719163.
Definition of_epoch (t : Z) : date := fromordinal (EPOCH_ORDINAL + t / 86400).

End Date.

Import Date.

(** ** Strings: digits, [str(date)], [str.split], [fnmatch], [strptime] *)

Definition digit_char (n : Z) : ascii := ascii_of_nat (48 + Z.to_nat n).

Definition is_digit (c : ascii) : bool :=
  let k := nat_of_ascii c in ((48 <=? k) && (k <=? 57))%nat.

Definition digit_val (c : ascii) : Z := Z.of_nat (nat_of_ascii c) - 48.

Definition pad2 (n : Z) : string :=
  String (digit_char (n / 10 mod 10)) (String (digit_char (n mod 10)) "").

Definition pad4 (n : Z) : string :=
  String (digit_char (n / 1000 mod 10))
    (String (digit_char (n / 100 mod 10)) (pad2 n)).

(** [str(d)], i.e. [d.isoformat()]: ["%04d-%02d-%02d"]. *)
Definition isoformat (a : date) : string :=
  pad4 (year a) +:+ "-" +:+ pad2 (month a) +:+ "-" +:+ pad2 (day a).

(** [s.split(sep)] for a one-character separator. *)
Fixpoint split (sep : ascii) (s : string) : list string :=
  match s with
  | EmptyString => [EmptyString]
  | String c s' =>
      if Ascii.eqb c sep then EmptyString :: split sep s'
      else match split sep s' with
           | [] => [String c EmptyString]
           | w :: ws => String c w :: ws
           end
  end.

(** [fnmatch] for patterns made of literal characters and [*]. *)
Fixpoint fnmatch (pat : string) : string -> bool :=
  match pat with
  | EmptyString => fun s => match s with EmptyString => true | _ => false end
  | String p pat' =>
      if Ascii.eqb p "*" then
        fix star (s : string) : bool :=
          fnmatch pat' s
          || match s with
             | EmptyString => false
             | String _ s' => star s'
             end
      else fun s =>
        match s with
        | EmptyString => false
        | String c s' => Ascii.eqb p c && fnmatch pat' s'
        end
  end.

(** The regular expression that [strptime] builds for ["%Y-%m-%d"] is
    [(\d\d\d\d)-(1[0-2]|0[1-9]|[1-9])-(3[01]|[12]\d|0[1-9]|[1-9]| [1-9])];
    each group is modelled by the list of its possible matches at the head
    of the input, in the order the alternatives are tried, each with the
    value read and the rest of the input. *)
Definition in_range (lo hi : ascii) (c : ascii) : bool :=
  ((nat_of_ascii lo <=? nat_of_ascii c) && (nat_of_ascii c <=? nat_of_ascii hi))%nat.

Definition two (p1 p2 : ascii -> bool) (s : string) : list (Z * string) :=
  match s with
  | String a (String b r) =>
      if p1 a && p2 b
      then [((if is_digit a then 10 * digit_val a else 0) + digit_val b, r)]
      else []
  | _ => []
  end.

Definition one (p : ascii -> bool) (s : string) : list (Z * string) :=
  match s with
  | String a r => if p a then [(digit_val a, r)] else []
  | _ => []
  end.

Definition re_month (s : string) : list (Z * string) :=
  two (Ascii.eqb "1") (in_range "0" "2") s
  ++ two (Ascii.eqb "0") (in_range "1" "9") s
  ++ one (in_range "1" "9") s.

Definition re_day (s : string) : list (Z * string) :=
  two (Ascii.eqb "3") (in_range "0" "1") s
  ++ two (in_range "1" "2") is_digit s
  ++ two (Ascii.eqb "0") (in_range "1" "9") s
  ++ one (in_range "1" "9") s
  ++ two (Ascii.eqb " ") (in_range "1" "9") s.

Definition re_year (s : string) : list (Z * string) :=
  match s with
  | String a (String b (String c (String d r))) =>
      if is_digit a && is_digit b && is_digit c && is_digit d
      then [(1000 * digit_val a + 100 * digit_val b
             + 10 * digit_val c + digit_val d, r)]
      else []
  | _ => []
  end.

Definition re_dash (s : string) : list string :=
  match s with
  | String c r => if Ascii.eqb c "-" then [r] else []
  | _ => []
  end.

(** All ways the expression matches a prefix of [s], in backtracking order. *)
Definition re_md (s : string) : list (Z * Z * string) :=
  r2 ← re_dash s;
  '(m, r3) ← re_month r2;
  r4 ← re_dash r3;
  '(d, r5) ← re_day r4;
  [(m, d, r5)].

Definition re_ymd (s : string) : list (Z * Z * Z * string) :=
  '(y, r1) ← re_year s;
  '(m, d, r) ← re_md r1;
  [(y, m, d, r)].

(** [datetime.strptime(s, "%Y-%m-%d").date()]: the first match is taken,
    input left over after it is an error, and so is a day that the calendar
    does not have.  [None] stands for the [ValueError]. *)
Definition strptime_ymd (s : string) : option date :=
  match re_ymd s with
  | (y, m, d, EmptyString) :: _ =>
      if valid_ymd y m d then Some (mkdate y m d) else None
  | _ => None
  end.


(** ** Tables ([pandas.DataFrame]) *)

Inductive column : Type :=
| Dates (l : list date)     (* calendar days *)
| Stamps (l : list Z)       (* UTC timestamps, seconds since the epoch *)
| Floats (l : list Q).

Definition col_len (c : column) : nat :=
  match c with
  | Dates l => length l
  | Stamps l => length l
  | Floats l => length l
  end.

(** A table is the association list of its columns, in column order. *)
Definition frame : Type := list (string * column).

Fixpoint get_col (name : string) (f : frame) : option column :=
  match f with
  | [] => None
  | (k, c) :: f' => if String.eqb k name then Some c else get_col name f'
  end.

Definition n_rows (f : frame) : nat :=
  match f with
  | [] => 0%nat
  | (_, c) :: _ => col_len c
  end.

(** [pd.DataFrame(data)] for a dict of arrays: all arrays must have the
    same length, otherwise pandas raises [ValueError]. *)
Definition DataFrame (data : list (string * column)) : py_result frame :=
  match data with
  | [] => Return []
  | (_, c) :: rest =>
      if forallb (fun kc => Nat.eqb (col_len kc.2) (col_len c)) rest
      then Return data
      else Raise ValueError
  end.

(** [pd.to_datetime] and [.dt.date] on a date column change the dtype of
    the cells, not the day or instant they denote; the model keeps the
    denotation. *)
Definition to_datetime (f : frame) : frame := f.

(** [np.round(x, 2)]: [rint(x * 100) / 100], ties to even. *)
Definition rint (x : Q) : Z :=
  let f := Qfloor x in
  match Qcompare (x - inject_Z f) (1 # 2) with
  | Lt => f
  | Gt => f + 1
  | Eq => if Z.even f then f else f + 1
  end.

Definition np_round2 (x : Q) : Q := inject_Z (rint (x * 100)) / 100.

(** A value has at most two decimal places. *)
Definition two_decimals (x : Q) : bool :=
  Qeq_bool (inject_Z (Qfloor (x * 100))) (x * 100).

(** [pd.date_range(start, end, freq, inclusive="left")] on second
    timestamps: the instants [start + k * step] that lie before [end].
    The provider sends a positive step; a step that is not positive is
    modelled as an error, and every statement about decoding assumes a
    positive step. *)
Definition date_range (start end_ step : Z) : py_result (list Z) :=
  if step <=? 0 then Raise ValueError
  else
    Return (map (fun k => start + Z.of_nat k * step)
                (seq 0 (Z.to_nat ((end_ - start + step - 1) / step)))).

(** ** The provider's response ([openmeteo_sdk]) *)

Record series : Type := mkseries {
  Time : Z;
  TimeEnd : Z;
  Interval : Z;
  Variables : list (list Q)     (* [Variables(i).ValuesAsNumpy()] *)
}.

Record response : Type := mkresponse { Daily : series; Hourly : series }.

Record params : Type := mkparams {
  latitude : Q;
  longitude : Q;
  past_days : Z;
  wind_speed_unit : string;
  temperature_unit : string;
  precipitation_unit : string
}.

(** ** The world: working directory, provider calls, random source, clock *)

Record world : Type := mkworld {
  files : gmap string frame;
  api_calls : nat;            (* calls of [openmeteo.weather_api] so far *)
  rng : nat -> Q;             (* the raw draws still to come *)
  clock : date                (* what [date.today()] reads *)
}.

Definition set_files (g : gmap string frame -> gmap string frame) (w : world) : world :=
  mkworld (g (files w)) (api_calls w) (rng w) (clock w).

(** State-and-error monad over a state [S]. *)
Definition M (S A : Type) : Type := S -> S * py_result A.

Definition ret {S A} (a : A) : M S A := fun s => (s, Return a).

Definition bind {S A B} (m : M S A) (k : A -> M S B) : M S B :=
  fun s => match m s with
           | (s', Return a) => k a s'
           | (s', Raise e) => (s', Raise e)
           end.

Definition raise {S A} (e : exn) : M S A := fun s => (s, Raise e).

Definition lift_result {S A} (r : py_result A) : M S A := fun s => (s, r).

(** [try: body except Exception: handler]. *)
Definition try_except {S A} (body : M S A) (handler : exn -> M S A) : M S A :=
  fun s => match body s with
           | (s', Raise e) => handler e s'
           | r => r
           end.

Global Instance M_ret {S} : MRet (M S) := fun A a => ret a.
Global Instance M_bind {S} : MBind (M S) := fun A B k m => bind m k.

(** Operations on the world. *)
Definition today_ : M world date := fun w => (w, Return (clock w)).

Definition path_exists (name : string) : M world bool :=
  fun w => (w, Return (bool_decide (is_Some (files w !! name)))).

Definition to_csv (f : frame) (name : string) : M world unit :=
  fun w => (set_files (insert name f) w, Return tt).

Definition read_csv (name : string) : M world frame :=
  fun w => match files w !! name with
           | Some f => (w, Return f)
           | None => (w, Raise FileNotFoundError)
           end.

Definition os_remove (name : string) : M world unit :=
  fun w => (set_files (delete name) w, Return tt).

(** [glob.glob(pattern)] in the working directory. *)
Definition glob (pat : string) : M world (list string) :=
  fun w => (w, Return (filter (fun n => fnmatch pat n = true) (map_to_list (files w)).*1)).

(** [np.random.uniform(lo, hi, n)]. *)
Definition uniform (lo hi : Q) (n : nat) : M world (list Q) :=
  fun w =>
    (mkworld (files w) (api_calls w) (fun k => rng w (n + k)%nat) (clock w),
     Return (map (fun k => (lo + (hi - lo) * rng w k)%Q) (seq 0 n))).

Global Instance py_result_ret : MRet py_result := fun A a => Return a.
Global Instance py_result_bind : MBind py_result :=
  fun A B k r => match r with Return a => k a | Raise e => Raise e end.

(** ** [get_weather_data] *)

(** The unit strings put in the request (the three conditional expressions
    at the head of [get_weather_data]). *)
Record unit_profile : Type := mkprofile {
  temp_unit : string;
  wind_unit : string;
  precip_unit : string
}.

Definition resolve_units (unit_system : string) : unit_profile :=
  {| temp_unit := if String.eqb unit_system "imperial" then "fahrenheit" else "celsius";
     wind_unit := if String.eqb unit_system "imperial" then "mph" else "kmh";
     precip_unit := if String.eqb unit_system "imperial" then "inch" else "mm" |}.

Definition request (lat lon : Q) (unit_system : string) : params :=
  let u := resolve_units unit_system in
  {| latitude := lat; longitude := lon; past_days := 31;
     wind_speed_unit := wind_unit u;
     temperature_unit := temp_unit u;
     precipitation_unit := precip_unit u |}.

(** [f"{unit_system}_{granularity}_data_{today}.csv"]. *)
Definition data_file (unit_system granularity : string) (today : date) : string :=
  unit_system +:+ "_" +:+ granularity +:+ "_data_" +:+ isoformat today +:+ ".csv".

Definition daily_variables : list string :=
  [ "temperature_2m_max"; "temperature_2m_min"; "temperature_2m_mean";
    "wind_speed_10m_mean"; "wind_speed_10m_min"; "wind_speed_10m_max";
    "relative_humidity_2m_mean"; "relative_humidity_2m_max";
    "relative_humidity_2m_min"; "precipitation_sum"; "rain_sum" ]%string.

(** [s.Variables(i).ValuesAsNumpy()]; a missing variable is [None], whose
    attribute access raises. *)
Definition values (s : series) (i : nat) : py_result (list Q) :=
  match Variables s !! i with
  | Some v => Return v
  | None => Raise AttributeError
  end.

Fixpoint rounded_columns (s : series) (i : nat) (names : list string)
  : py_result (list (string * column)) :=
  match names with
  | [] => Return []
  | name :: names' =>
      v ← values s i;
      rest ← rounded_columns s (S i) names';
      Return ((name, Floats (map np_round2 v)) :: rest)
  end.

(** Lines 80-123: the daily table. *)
Definition decode_daily (daily : series) : py_result frame :=
  stamps ← date_range (Time daily) (TimeEnd daily) (Interval daily);
  cols ← rounded_columns daily 0 daily_variables;
  DataFrame (("date"%string, Dates (map of_epoch stamps)) :: cols).

(** Lines 125-135: the hourly table, values as the provider sent them. *)
Definition decode_hourly (hourly : series) : py_result frame :=
  stamps ← date_range (Time hourly) (TimeEnd hourly) (Interval hourly);
  v ← values hourly 0;
  DataFrame [("date"%string, Stamps stamps); ("temperature_2m"%string, Floats v)].

(** The local variables that the [return] statement reads. *)
Record locals : Type := mklocals {
  daily_dataframe : option frame;
  hourly_dataframe : option frame
}.

Definition no_locals : locals := mklocals None None.

Definition lift {A} (m : M world A) : M (world * locals) A :=
  fun s => let '(w', r) := m s.1 in ((w', s.2), r).

Definition assign_daily (f : frame) : M (world * locals) unit :=
  fun s => ((s.1, mklocals (Some f) (hourly_dataframe s.2)), Return tt).

Definition assign_hourly (f : frame) : M (world * locals) unit :=
  fun s => ((s.1, mklocals (daily_dataframe s.2) (Some f)), Return tt).

(** Reading a local that was never assigned raises [UnboundLocalError]. *)
Definition read_local (get : locals -> option frame) : M (world * locals) frame :=
  fun s => match get s.2 with
           | Some f => (s, Return f)
           | None => (s, Raise UnboundLocalError)
           end.

Definition run_locals {A} (m : M (world * locals) A) : M world A :=
  fun w => let '(s, r) := m (w, no_locals) in (s.1, r).

(** The ranges of the dummy data, selected by the unit system. *)
Record dummy_ranges : Type := mkranges {
  temp_max_range : Q * Q;
  temp_min_range : Q * Q;
  temp_mean_range : Q * Q;
  wind_range : Q * Q;
  precip_range : Q * Q
}.

Definition select_ranges (unit_system : string) : dummy_ranges :=
  if String.eqb unit_system "imperial" then
    {| temp_max_range := (60, 90); temp_min_range := (40, 70);
       temp_mean_range := (50, 80); wind_range := (5, 20);
       precip_range := (0, 1) |}%Q
  else
    {| temp_max_range := (15, 32); temp_min_range := (4, 21);
       temp_mean_range := (10, 27); wind_range := (8, 32);
       precip_range := (0, 25) |}%Q.

(** [range(31, 0, -1)] and [range(7)]. *)
Definition past_offsets : list Z := map (fun i => - Z.of_nat (31 - i)) (seq 0 31).
Definition future_offsets : list Z := map Z.of_nat (seq 0 7).

Definition dummy_dates (today : date) : py_result (list date) :=
  past ← mapM (M := py_result) (add_days today) past_offsets;
  future ← mapM (M := py_result) (add_days today) future_offsets;
  Return (past ++ future).

Section App.

(** The remote provider behind [openmeteo.weather_api]: what the call
    numbered [n] answers to a request. *)
Variable weather_api : nat -> params -> py_result (list response).

Definition call_weather_api (p : params) : M world (list response) :=
  fun w =>
    (mkworld (files w) (S (api_calls w)) (rng w) (clock w),
     weather_api (api_calls w) p).

(** [responses[0]]. *)
Definition first_response (rs : list response) : py_result response :=
  match rs with
  | r :: _ => Return r
  | [] => Raise IndexError
  end.

(** Lines 75-139: the body of the [try]. *)
Definition try_block (p : params) (unit_system : string) (today : date)
  : M (world * locals) unit :=
  responses ← lift (call_weather_api p);
  response ← lift_result (first_response responses);
  daily ← lift_result (decode_daily (Daily response));
  assign_daily daily;;
  hourly ← lift_result (decode_hourly (Hourly response));
  assign_hourly hourly;;
  lift (to_csv hourly (data_file unit_system "hourly" today));;
  lift (to_csv daily (data_file unit_system "daily" today)).

(** Lines 162-176: the dummy table, one uniform sample per cell. *)
Definition dummy_frame (unit_system : string) (dates : list date) : M world frame :=
  let r := select_ranges unit_system in
  let n := length dates in
  c1 ← uniform (temp_max_range r).1 (temp_max_range r).2 n;
  c2 ← uniform (temp_min_range r).1 (temp_min_range r).2 n;
  c3 ← uniform (temp_mean_range r).1 (temp_mean_range r).2 n;
  c4 ← uniform (wind_range r).1 (wind_range r).2 n;
  c5 ← uniform 0 (wind_range r).1 n;
  c6 ← uniform (wind_range r).1 ((wind_range r).2 * 1.5) n;
  c7 ← uniform 60 90 n;
  c8 ← uniform 70 100 n;
  c9 ← uniform 40 70 n;
  c10 ← uniform 0 (precip_range r).2 n;
  c11 ← uniform 0 ((precip_range r).2 * 0.8) n;
  lift_result (DataFrame
    [ ("date", Dates dates);
      ("temperature_2m_max", Floats c1);
      ("temperature_2m_min", Floats c2);
      ("temperature_2m_mean", Floats c3);
      ("wind_speed_10m_mean", Floats c4);
      ("wind_speed_10m_min", Floats c5);
      ("wind_speed_10m_max", Floats c6);
      ("relative_humidity_2m_mean", Floats c7);
      ("relative_humidity_2m_max", Floats c8);
      ("relative_humidity_2m_min", Floats c9);
      ("precipitation_sum", Floats c10);
      ("rain_sum", Floats c11) ]%string).

(** Lines 141-180: the handler. *)
Definition except_block (unit_system : string) (today : date)
  : M (world * locals) unit :=
  dates ← lift_result (dummy_dates today);
  df ← lift (dummy_frame unit_system dates);
  assign_daily (to_datetime df);;
  lift (to_csv (to_datetime df) (data_file unit_system "daily" today)).

Definition get_weather_data (lat lon : Q) (unit_system : string)
  : M world (frame * frame) :=
  today ← today_;
  run_locals (
    try_except (try_block (request lat lon unit_system) unit_system today)
               (fun _ => except_block unit_system today);;
    d ← read_local daily_dataframe;
    h ← read_local hourly_dataframe;
    mret (d, h)).

(** The default arguments: Louisville, KY, imperial units. *)
Definition default_latitude : Q := 38.2542.
Definition default_longitude : Q := -85.7594.

(** ** [cleanup_old_data_files] *)

(** [file.split("_")[3].split(".")[0]] parsed with ["%Y-%m-%d"]; [None]
    stands for any exception, which the loop body catches. *)
Definition file_date (file : string) : option date :=
  part ← split "_" file !! 3%nat;
  stem ← split "." part !! 0%nat;
  strptime_ymd stem.

(** One iteration of either loop. *)
Definition sweep_file (today : date) (file : string) : M world unit :=
  match file_date file with
  | Some d => if Date.ltb d today then os_remove file else mret tt
  | None => mret tt
  end.

Fixpoint for_each {A} (body : A -> M world unit) (l : list A) : M world unit :=
  match l with
  | [] => mret tt
  | a :: l' => body a;; for_each body l'
  end.

Definition sweep_pattern (today : date) (pat : string) : M world unit :=
  found ← glob pat;
  for_each (sweep_file today) found.

Definition cleanup_old_data_files : M world unit :=
  today ← today_;
  for_each (fun unit =>
      sweep_pattern today (unit +:+ "_daily_data_*.csv");;
      sweep_pattern today (unit +:+ "_hourly_data_*.csv"))
    ["imperial"; "metric"]%string.

(** ** The callers: module start-up and the dashboard callback *)

(** The module-level names that the data path reads and writes. *)
Record globals : Type := mkglobals {
  today : date;
  g_daily : frame;
  g_hourly : frame
}.

(** Lines 219-233, run once when the module is loaded. *)
Definition startup : M world globals :=
  t ← today_;
  e1 ← path_exists ("daily_data_" +:+ isoformat t +:+ ".csv");
  e2 ← (if e1 then path_exists ("hourly_data_" +:+ isoformat t +:+ ".csv")
         else mret false);
  if e1 && e2 then
    d ← read_csv ("daily_data_" +:+ isoformat t +:+ ".csv");
    h ← read_csv ("hourly_data_" +:+ isoformat t +:+ ".csv");
    mret (mkglobals t (to_datetime d) (to_datetime h))
  else
    '(d, h) ← get_weather_data default_latitude default_longitude "imperial";
    cleanup_old_data_files;;
    mret (mkglobals t (to_datetime d) (to_datetime h)).

(** Lines 689-701: the load-or-fetch prefix of [update_dashboard]; [today]
    is the module-level name set at start-up. *)
Definition update_dashboard (g : globals) (unit_system : string) : M world globals :=
  e1 ← path_exists (data_file unit_system "daily" (today g));
  e2 ← (if e1 then path_exists (data_file unit_system "hourly" (today g))
         else mret true);
  if negb e1 || negb e2 then
    '(d, h) ← get_weather_data default_latitude default_longitude unit_system;
    cleanup_old_data_files;;
    mret (mkglobals (today g) d h)
  else
    d ← read_csv (data_file unit_system "daily" (today g));
    h ← read_csv (data_file unit_system "hourly" (today g));
    mret (mkglobals (today g) (to_datetime d) (to_datetime h)).

(** Lines 641-648: the load-or-fetch prefix of [update_hourly_graphs]. *)
Definition update_hourly_graphs (g : globals) (unit_system : string) : M world frame :=
  e ← path_exists (data_file unit_system "hourly" (today g));
  if negb e then
    '(_, h) ← get_weather_data default_latitude default_longitude unit_system;
    mret h
  else
    h ← read_csv (data_file unit_system "hourly" (today g));
    mret (to_datetime h).

End App.

(** * Vocabulary of the statements and concrete inputs *)

(** The check of [month_day] on [fuel] consecutive day numbers from [r]. *)
Fixpoint month_days_ok (leapyear : bool) (fuel : nat) (r : Z) : bool :=
  match fuel with
  | O => true
  | S fuel' =>
      (let '(m, d) := month_day leapyear r in
       DAYS_BEFORE_MONTH m + (if (2 <? m) && leapyear then 1 else 0) + d
       =? r + 1)
      && month_days_ok leapyear fuel' (r + 1)
  end.

(** The character occurs in the string. *)
Fixpoint has_char (c : ascii) (s : string) : bool :=
  match s with
  | EmptyString => false
  | String a s' => Ascii.eqb a c || has_char c s'
  end.

(** The test of the loop body: the name carries a date before [today]. *)
Definition stale (today : date) (file : string) : bool :=
  match file_date file with
  | Some d => Date.ltb d today
  | None => false
  end.

(** The four patterns the janitor globs. *)
Definition cleanup_patterns : list string :=
  [ "imperial_daily_data_*.csv"; "imperial_hourly_data_*.csv";
    "metric_daily_data_*.csv"; "metric_hourly_data_*.csv" ]%string.

(** The file is looked at by one of the four loops. *)
Definition swept (file : string) : bool :=
  existsb (fun pat => fnmatch pat file) cleanup_patterns.

(** The directory after one loop over the names [l]. *)
Definition remove_stale (today : date) (l : list string) (fs : gmap string frame)
  : gmap string frame :=
  foldl (fun fs n => if stale today n then delete n fs else fs) fs l.

(** The raw draws are in the unit interval. *)
Definition unit_draws (r : nat -> Q) : Prop := forall k, (0 <= r k /\ r k < 1)%Q.

(** The column exists, has [n] cells, and every cell is in [[lo, hi]]. *)
Definition within (lo hi : Q) (c : option column) (n : nat) : Prop :=
  exists vals, c = Some (Floats vals) /\ length vals = n
               /\ Forall (fun v => (lo <= v /\ v <= hi)%Q) vals.

(** The sampling ranges of the eleven columns, as the handler passes them
    to [np.random.uniform]. *)
Definition sampling_ranges (unit_system : string) : list (string * (Q * Q)) :=
  let r := select_ranges unit_system in
  [ ("temperature_2m_max", temp_max_range r);
    ("temperature_2m_min", temp_min_range r);
    ("temperature_2m_mean", temp_mean_range r);
    ("wind_speed_10m_mean", wind_range r);
    ("wind_speed_10m_min", (0, (wind_range r).1));
    ("wind_speed_10m_max", ((wind_range r).1, (wind_range r).2 * 1.5));
    ("relative_humidity_2m_mean", (60, 90));
    ("relative_humidity_2m_max", (70, 100));
    ("relative_humidity_2m_min", (40, 70));
    ("precipitation_sum", (0, (precip_range r).2));
    ("rain_sum", (0, (precip_range r).2 * 0.8)) ]%string%Q.

(** The 38 days of the window, from 31 days ago to 6 days ahead. *)
Definition window (today : date) : list date :=
  map (fun i => fromordinal (toordinal today + (Z.of_nat i - 31))) (seq 0 38).

(** The world after one more call of the provider. *)
Definition called (w : world) : world :=
  mkworld (files w) (S (api_calls w)) (rng w) (clock w).

(** The fetch fails: the body of the [try] raises. *)
Definition fetch_fails (weather_api : nat -> params -> py_result (list response))
    (lat lon : Q) (unit_system : string) (w : world) : Prop :=
  raises (try_block weather_api (request lat lon unit_system) unit_system
            (clock w) (w, no_locals)).2.

(** The day of the concrete inputs. *)
Definition sample_day : date := mkdate 2024 3 1.

(** An empty directory on 2024-03-01; every raw draw is 1/16. *)
Definition fresh_world : world := mkworld ∅ 0 (fun _ => 1 # 16)%Q sample_day.

(** A provider that is unreachable. *)
Definition provider_down : nat -> params -> py_result (list response) :=
  fun _ _ => Raise ProviderError.

(** A provider that answers with two days and two hours of data. *)
Definition two_days : series :=
  mkseries 0 172800 86400 (repeat [70.123; 71.456]%Q 11).

Definition two_hours : series := mkseries 0 7200 3600 [[70.123; 70.5]%Q].

Definition provider_up : nat -> params -> py_result (list response) :=
  fun _ _ => Return [mkresponse two_days two_hours].

(** The directory already holds today's imperial tables. *)
Definition cached_world : world :=
  set_files (fun fs => <["imperial_daily_data_2024-03-01.csv"%string := []]>
                       (<["imperial_hourly_data_2024-03-01.csv"%string := []]> fs))
            fresh_world.

(** Four daily files, dated two days ago, yesterday, today and tomorrow. *)
Definition four_files : world :=
  set_files (fun fs => <["imperial_daily_data_2024-02-28.csv"%string := []]>
                       (<["imperial_daily_data_2024-02-29.csv"%string := []]>
                       (<["imperial_daily_data_2024-03-01.csv"%string := []]>
                       (<["imperial_daily_data_2024-03-02.csv"%string := []]> fs))))
            fresh_world.

(** The two unit profiles. *)
Definition imperial_profile : unit_profile := mkprofile "fahrenheit" "mph" "inch".
Definition metric_profile : unit_profile := mkprofile "celsius" "kmh" "mm".

(** The ranges of the dummy data, per column, for the two branches of the
    handler (imperial, and everything else). *)
Definition declared_ranges (unit_system : string) : list (string * (Q * Q)) :=
  if String.eqb unit_system "imperial" then
    [ ("temperature_2m_max", (60, 90)); ("temperature_2m_min", (40, 70));
      ("temperature_2m_mean", (50, 80)); ("wind_speed_10m_mean", (5, 20));
      ("wind_speed_10m_min", (0, 5)); ("wind_speed_10m_max", (5, 30));
      ("relative_humidity_2m_mean", (60, 90));
      ("relative_humidity_2m_max", (70, 100));
      ("relative_humidity_2m_min", (40, 70));
      ("precipitation_sum", (0, 1)); ("rain_sum", (0, 0.8)) ]%string%Q
  else
    [ ("temperature_2m_max", (15, 32)); ("temperature_2m_min", (4, 21));
      ("temperature_2m_mean", (10, 27)); ("wind_speed_10m_mean", (8, 32));
      ("wind_speed_10m_min", (0, 8)); ("wind_speed_10m_max", (8, 48));
      ("relative_humidity_2m_mean", (60, 90));
      ("relative_humidity_2m_max", (70, 100));
      ("relative_humidity_2m_min", (40, 70));
      ("precipitation_sum", (0, 25)); ("rain_sum", (0, 20)) ]%string%Q.

(** Draws of 0 for the first column and 9/10 afterwards: the first row has
    a maximum temperature of 60 and a minimum temperature of 67. *)
Definition skewed_world : world :=
  mkworld ∅ 0 (fun k => if (k <? 38)%nat then 0 else 9 # 10)%Q sample_day.

(** The number of instants [Time + k * Interval] before [TimeEnd]. *)
Definition instants (s : series) : nat :=
  Z.to_nat ((TimeEnd s - Time s + Interval s - 1) / Interval s).



(** * The views computed from the tables *)

(** [l[mask]]: the entries at which the mask is true. *)
Fixpoint keep {A} (mask : list bool) (l : list A) : list A :=
  match mask, l with
  | b :: mask', x :: l' => if b then x :: keep mask' l' else keep mask' l'
  | _, _ => []
  end.

Definition keep_column (mask : list bool) (c : column) : column :=
  match c with
  | Dates l => Dates (keep mask l)
  | Stamps l => Stamps (keep mask l)
  | Floats l => Floats (keep mask l)
  end.

(** [df[mask]]: the rows at which the mask is true, in every column. *)
Definition select_rows (mask : list bool) (f : frame) : frame :=
  map (fun kc => (kc.1, keep_column mask kc.2)) f.

(** [col.dt.date]: the calendar day (in UTC) of each cell of a date
    column; [None] stands for the error on a column of numbers. *)
Definition dt_date (c : column) : option (list date) :=
  match c with
  | Dates l => Some l
  | Stamps l => Some (map of_epoch l)
  | Floats _ => None
  end.

(** [Series.unique()]: the distinct values, in order of first appearance. *)
Definition unique (l : list date) : list date :=
  foldl (fun seen d => if existsb (Date.eqb d) seen then seen else seen ++ [d])
        [] l.

(** Lines 236-238: the days of the hourly table from today on, each once.
    [None] stands for an exception (no date column). *)
Definition unique_days (today : date) (hourly : frame) : option (list date) :=
  c ← get_col "date" hourly;
  days ← dt_date c;
  c' ← get_col "date" (select_rows (map (fun d => negb (Date.ltb d today)) days) hourly);
  days' ← dt_date c';
  Some (unique days').

(** Line 251 and line 650: the rows of the hourly table that fall on the
    selected day. *)
Definition rows_of_day (selected : date) (hourly : frame) : option frame :=
  c ← get_col "date" hourly;
  days ← dt_date c;
  Some (select_rows (map (fun d => Date.eqb d selected) days) hourly).

(** [row[name]] of the row numbered [i], for a column of numbers. *)
Definition cell (name : string) (i : nat) (f : frame) : option Q :=
  c ← get_col name f;
  match c with
  | Floats l => l !! i
  | _ => None
  end.

(** What the summary cards of [update_dashboard] show. *)
Inductive summary : Type :=
| NoData (selected : date)
| Cards (max_temp max_wind mean_humidity : Q).

(** Lines 709-723 and 807-811: the row of the selected day and its three
    figures.  On the fetch branch the date column holds calendar days; on
    the cache branch it is converted with [.dt.date].  [None] stands for
    an exception (a missing column) and for a date column of numbers,
    which no table of the program has. *)
Definition daily_summary (selected : date) (daily : frame) : option summary :=
  c ← get_col "date" daily;
  days ← dt_date c;
  let selected_day_data := select_rows (map (fun d => Date.eqb d selected) days) daily in
  if Nat.eqb (n_rows selected_day_data) 0 then Some (NoData selected)
  else
    max_temp ← cell "temperature_2m_max" 0 selected_day_data;
    max_wind ← cell "wind_speed_10m_max" 0 selected_day_data;
    mean_humidity ← cell "relative_humidity_2m_mean" 0 selected_day_data;
    Some (Cards max_temp max_wind mean_humidity).

(** Lines 651-656: the points of the hourly trace, [x=filtered["date"]]
    against [y=filtered["temperature_2m"]]. *)
Definition trace (filtered : frame) : option (list (Z * Q)) :=
  x ← get_col "date" filtered;
  y ← get_col "temperature_2m" filtered;
  match x, y with
  | Stamps ts, Floats vs => Some (zip ts vs)
  | _, _ => None
  end.

(** Every column of the table has [n] cells. *)
Definition rectangular (n : nat) (f : frame) : Prop :=
  Forall (fun kc => col_len kc.2 = n) f.

(** The two names [get_weather_data] writes for a unit system. *)
Definition written_names (unit_system : string) (today : date) : list string :=
  [data_file unit_system "daily" today; data_file unit_system "hourly" today].

(** * Properties *)

(** ** Digits and [str(date)] *)

Lemma Z_range_cases (P : Z -> Prop) (lo : Z) (n : nat) :
  (forall k : nat, (k < n)%nat -> P (lo + Z.of_nat k)) ->
  forall z, lo <= z < lo + Z.of_nat n -> P z.
Proof.
  intros H z Hz.
  replace z with (lo + Z.of_nat (Z.to_nat (z - lo))) by lia.
  apply H. lia.
Qed.

Lemma digit_char_spec (n : Z) :
  0 <= n < 10 ->
  is_digit (digit_char n) = true /\ digit_val (digit_char n) = n.
Proof.
  revert n. apply (Z_range_cases _ 0 10). intros k Hk.
  do 10 (destruct k as [|k]; [split; reflexivity|]). lia.
Qed.

Lemma is_digit_digit_char (n : Z) : 0 <= n < 10 -> is_digit (digit_char n) = true.
Proof. intros H. apply digit_char_spec, H. Qed.

Lemma digit_val_digit_char (n : Z) : 0 <= n < 10 -> digit_val (digit_char n) = n.
Proof. intros H. apply digit_char_spec, H. Qed.

Lemma digit_char_neq (n : Z) (c : ascii) :
  0 <= n < 10 -> is_digit c = false -> Ascii.eqb (digit_char n) c = false.
Proof.
  intros Hn Hc. destruct (Ascii.eqb_spec (digit_char n) c) as [E|]; [|done].
  rewrite <- E, is_digit_digit_char in Hc; done.
Qed.

Lemma mod10_range (n : Z) : 0 <= n mod 10 < 10.
Proof. apply Z.mod_pos_bound. lia. Qed.

Lemma append_cons (c : ascii) (s r : string) : String c s +:+ r = String c (s +:+ r).
Proof. reflexivity. Qed.

Lemma append_nil (r : string) : EmptyString +:+ r = r.
Proof. reflexivity. Qed.

Lemma re_year_pad4 (y : Z) (r : string) :
  0 <= y <= 9999 -> re_year (pad4 y +:+ r) = [(y, r)].
Proof.
  intros Hy. unfold pad4, pad2. rewrite !append_cons, append_nil. unfold re_year.
  rewrite !is_digit_digit_char by apply mod10_range.
  rewrite !digit_val_digit_char by apply mod10_range.
  cbn [andb]. do 2 f_equal. Z.div_mod_to_equations. lia.
Qed.

Lemma re_md_pad2 (m d : Z) :
  1 <= m <= 12 -> 1 <= d <= 31 ->
  exists rest, re_md ("-" +:+ pad2 m +:+ "-" +:+ pad2 d) = (m, d, EmptyString) :: rest.
Proof.
  intros Hm Hd.
  pattern m. apply (Z_range_cases _ 1 12); [|lia]. intros j Hj.
  pattern d. apply (Z_range_cases _ 1 31); [|lia]. intros k Hk.
  do 12 (destruct j as [|j]; [
    do 31 (destruct k as [|k]; [vm_compute; eexists; reflexivity|]); lia |]).
  lia.
Qed.

Lemma days_in_month_le (y m : Z) : 1 <= m <= 12 -> days_in_month y m <= 31.
Proof.
  intros Hm. pattern m. apply (Z_range_cases _ 1 12); [|lia]. intros j Hj.
  unfold days_in_month.
  do 12 (destruct j as [|j]; [destruct (is_leap y); vm_compute; discriminate|]).
  lia.
Qed.

Lemma valid_ymd_bounds (y m d : Z) :
  valid_ymd y m d = true -> 1 <= y <= 9999 /\ 1 <= m <= 12 /\ 1 <= d <= 31.
Proof.
  unfold valid_ymd, MINYEAR, MAXYEAR.
  rewrite !andb_true_iff, !Z.leb_le. intros H.
  pose proof (days_in_month_le y m). lia.
Qed.

(** Parsing the text of a date gives the date back. *)
Lemma strptime_isoformat (a : date) : valid a -> strptime_ymd (isoformat a) = Some a.
Proof.
  destruct a as [y m d]. unfold valid. cbn [year month day]. intros Hv.
  destruct (valid_ymd_bounds _ _ _ Hv) as (Hy & Hm & Hd).
  unfold strptime_ymd, re_ymd, isoformat. cbn [year month day].
  rewrite re_year_pad4 by lia.
  cbn [mbind list_bind]. 
  destruct (re_md_pad2 m d) as [rest ->]; [lia..|].
  cbn. rewrite Hv. reflexivity.
Qed.

(** ** Ordinals and dates *)

Lemma month_days_ok_spec (leapyear : bool) (fuel : nat) (r0 : Z) :
  month_days_ok leapyear fuel r0 = true ->
  forall r, r0 <= r < r0 + Z.of_nat fuel ->
    DAYS_BEFORE_MONTH (month_day leapyear r).1
    + (if (2 <? (month_day leapyear r).1) && leapyear then 1 else 0)
    + (month_day leapyear r).2 = r + 1.
Proof.
  revert r0. induction fuel as [|fuel IH]; intros r0 H r Hr; [lia|].
  cbn [month_days_ok] in H. apply andb_prop in H as [H0 H1].
  destruct (decide (r = r0)) as [->|Hne].
  - destruct (month_day leapyear r0) as [m d]. by apply Z.eqb_eq.
  - apply (IH (r0 + 1) H1). lia.
Qed.

Lemma month_day_ok (leapyear : bool) (r : Z) :
  0 <= r < 365 ->
  DAYS_BEFORE_MONTH (month_day leapyear r).1
  + (if (2 <? (month_day leapyear r).1) && leapyear then 1 else 0)
  + (month_day leapyear r).2 = r + 1.
Proof.
  intros Hr. apply (month_days_ok_spec leapyear 365 0); [|lia].
  destruct leapyear; vm_compute; reflexivity.
Qed.

Lemma days_before_year_split (a b c e : Z) :
  0 <= b <= 3 -> 0 <= c <= 24 -> 0 <= e <= 3 ->
  days_before_year (400 * a + 100 * b + 4 * c + e + 1)
  = DI400Y * a + DI100Y * b + DI4Y * c + 365 * e.
Proof.
  intros Hb Hc He. unfold days_before_year, DI400Y, DI100Y, DI4Y. cbv zeta.
  Z.div_mod_to_equations. lia.
Qed.

Lemma is_leap_split (a b c e : Z) :
  0 <= b <= 3 -> 0 <= c <= 24 -> 0 <= e <= 3 ->
  is_leap (400 * a + 100 * b + 4 * c + e + 1)
  = (e =? 3) && (negb (c =? 24) || (b =? 3)).
Proof.
  intros Hb Hc He. unfold is_leap.
  destruct (Z.eqb_spec ((400 * a + 100 * b + 4 * c + e + 1) mod 4) 0) as [H4|H4];
  destruct (Z.eqb_spec ((400 * a + 100 * b + 4 * c + e + 1) mod 100) 0) as [H100|H100];
  destruct (Z.eqb_spec ((400 * a + 100 * b + 4 * c + e + 1) mod 400) 0) as [H400|H400];
  destruct (Z.eqb_spec e 3); destruct (Z.eqb_spec c 24); destruct (Z.eqb_spec b 3);
  cbn [andb orb negb]; try reflexivity; exfalso;
  Z.div_mod_to_equations; lia.
Qed.

Lemma fromordinal_unfold (n : Z) :
  fromordinal n =
    let a := (n - 1) / DI400Y in
    let r1 := (n - 1) mod DI400Y in
    let b := r1 / DI100Y in
    let r2 := r1 mod DI100Y in
    let c := r2 / DI4Y in
    let r3 := r2 mod DI4Y in
    let e := r3 / 365 in
    let r := r3 mod 365 in
    if (e =? 4) || (b =? 4)
    then mkdate (400 * a + 100 * b + 4 * c + e) 12 31
    else
      let md := month_day ((e =? 3) && (negb (c =? 24) || (b =? 3))) r in
      mkdate (400 * a + 100 * b + 4 * c + e + 1) md.1 md.2.
Proof.
  unfold fromordinal. cbv zeta.
  destruct (_ || _); f_equal; lia.
Qed.

(** Every positive ordinal is the ordinal of its date. *)
Lemma toordinal_fromordinal (n : Z) : 1 <= n -> toordinal (fromordinal n) = n.
Proof.
  intros Hn. rewrite fromordinal_unfold. cbv zeta.
  pose proof (Z.div_mod (n - 1) DI400Y ltac:(done)) as E1.
  pose proof (Z.mod_pos_bound (n - 1) DI400Y ltac:(done)) as B1.
  set (a := (n - 1) / DI400Y) in *. set (r1 := (n - 1) mod DI400Y) in *.
  pose proof (Z.div_mod r1 DI100Y ltac:(done)) as E2.
  pose proof (Z.mod_pos_bound r1 DI100Y ltac:(done)) as B2.
  set (b := r1 / DI100Y) in *. set (r2 := r1 mod DI100Y) in *.
  pose proof (Z.div_mod r2 DI4Y ltac:(done)) as E3.
  pose proof (Z.mod_pos_bound r2 DI4Y ltac:(done)) as B3.
  set (c := r2 / DI4Y) in *. set (r3 := r2 mod DI4Y) in *.
  pose proof (Z.div_mod r3 365 ltac:(done)) as E4.
  pose proof (Z.mod_pos_bound r3 365 ltac:(done)) as B4.
  set (e := r3 / 365) in *. set (r := r3 mod 365) in *.
  clearbody a r1 b r2 c r3 e r. unfold DI400Y, DI100Y, DI4Y in *.
  assert (Hb : 0 <= b <= 4) by lia.
  assert (Hc : 0 <= c <= 24) by lia.
  assert (He : 0 <= e <= 4) by lia.
  destruct (Z.eqb_spec b 4) as [Eb|Nb].
  { (* the last day of a 400-year cycle *)
    rewrite orb_true_r. unfold toordinal. cbn [year month day].
    assert (c = 0 /\ e = 0 /\ r = 0) as (-> & -> & ->) by lia. subst b.
    replace (400 * a + 100 * 4 + 4 * 0 + 0)
      with (400 * a + 100 * 3 + 4 * 24 + 3 + 1) by lia.
    unfold days_before_month.
    rewrite days_before_year_split, is_leap_split by lia.
    cbn. unfold DI400Y, DI100Y, DI4Y. lia. }
  destruct (Z.eqb_spec e 4) as [Ee|Ne].
  { (* the last day of a leap year *)
    cbn [orb]. unfold toordinal. cbn [year month day].
    assert (c <= 23 /\ r = 0) as (Hc' & ->) by lia. subst e.
    replace (400 * a + 100 * b + 4 * c + 4)
      with (400 * a + 100 * b + 4 * c + 3 + 1) by lia.
    unfold days_before_month.
    rewrite days_before_year_split, is_leap_split by lia.
    destruct (Z.eqb_spec c 24); [lia|]. cbn.
    unfold DI400Y, DI100Y, DI4Y. lia. }
  cbn [orb]. unfold toordinal. cbn [year month day]. unfold days_before_month.
  rewrite days_before_year_split, is_leap_split by lia.
  pose proof (month_day_ok ((e =? 3) && (negb (c =? 24) || (b =? 3))) r B4) as Hmd.
  unfold DI400Y, DI100Y, DI4Y. lia.
Qed.

(** ** [split] and [fnmatch] on file names *)

Lemma has_char_app (c : ascii) (s r : string) :
  has_char c (s +:+ r) = has_char c s || has_char c r.
Proof.
  induction s as [|a s IH]; [reflexivity|].
  rewrite append_cons. cbn [has_char]. rewrite IH. apply orb_assoc.
Qed.

Lemma split_nonempty (sep : ascii) (s : string) : split sep s <> [].
Proof.
  induction s as [|c s IH]; cbn [split]; [done|].
  destruct (Ascii.eqb c sep); [done|]. destruct (split sep s); done.
Qed.

(** A prefix without the separator stays in the first field. *)
Lemma split_app_l (sep : ascii) (s r : string) :
  has_char sep s = false ->
  split sep (s +:+ r) =
    match split sep r with
    | w :: ws => (s +:+ w) :: ws
    | [] => []
    end.
Proof.
  induction s as [|c s IH]; intros H.
  - rewrite append_nil. destruct (split sep r); reflexivity.
  - cbn [has_char] in H. apply orb_false_elim in H as [Hc Hs].
    rewrite append_cons. cbn [split]. rewrite Hc, (IH Hs).
    destruct (split sep r) as [|w ws] eqn:E; [|reflexivity].
    by apply split_nonempty in E.
Qed.

Lemma split_field (sep : ascii) (s r : string) :
  has_char sep s = false ->
  split sep (s +:+ String sep r) = s :: split sep r.
Proof.
  intros H. rewrite (split_app_l _ _ _ H). cbn [split].
  rewrite Ascii.eqb_refl. f_equal. induction s as [|c s IH]; [reflexivity|].
  cbn [has_char] in H. apply orb_false_elim in H as [_ Hs].
  rewrite append_cons, (IH Hs). reflexivity.
Qed.

Lemma split_last (sep : ascii) (s : string) :
  has_char sep s = false -> split sep s = [s].
Proof.
  induction s as [|c s IH]; intros H; [reflexivity|].
  cbn [has_char] in H. apply orb_false_elim in H as [Hc Hs].
  cbn [split]. rewrite Hc, (IH Hs). reflexivity.
Qed.

Lemma has_char_isoformat (c : ascii) (a : date) :
  is_digit c = false -> Ascii.eqb "-" c = false -> has_char c (isoformat a) = false.
Proof.
  intros Hd Hm. unfold isoformat, pad4, pad2.
  rewrite !append_cons, !append_nil. cbn [has_char].
  rewrite !digit_char_neq by (apply mod10_range || exact Hd).
  rewrite Hm. reflexivity.
Qed.

(** The date part of a cache file name is read back by the janitor. *)
Lemma file_date_data_file (u g : string) (a : date) :
  has_char "_" u = false -> has_char "_" g = false -> valid a ->
  file_date (data_file u g a) = Some a.
Proof.
  intros Hu Hg Hv. unfold file_date, data_file.
  change ("_" +:+ g +:+ "_data_" +:+ isoformat a +:+ ".csv")
    with (String "_" (g +:+ String "_" ("data" +:+ String "_" (isoformat a +:+ ".csv")))).
  rewrite (split_field _ _ _ Hu), (split_field _ _ _ Hg).
  rewrite split_field by reflexivity.
  rewrite split_last.
  2:{ rewrite has_char_app, has_char_isoformat by reflexivity. reflexivity. }
  cbn [lookup list_lookup mbind option_bind].
  change (isoformat a +:+ ".csv") with (isoformat a +:+ String "." "csv").
  rewrite split_field by (apply has_char_isoformat; reflexivity).
  cbn [lookup list_lookup mbind option_bind].
  by apply strptime_isoformat.
Qed.

Lemma fnmatch_refl (s : string) : has_char "*" s = false -> fnmatch s s = true.
Proof.
  induction s as [|c s IH]; intros H; [reflexivity|].
  cbn [has_char] in H. apply orb_false_elim in H as [Hc Hs].
  cbn [fnmatch]. rewrite Hc, Ascii.eqb_refl. by apply IH.
Qed.

Lemma fnmatch_prefix (pre pat s : string) :
  has_char "*" pre = false ->
  fnmatch (pre +:+ pat) (pre +:+ s) = fnmatch pat s.
Proof.
  induction pre as [|c pre IH]; intros H; [reflexivity|].
  cbn [has_char] in H. apply orb_false_elim in H as [Hc Hs].
  rewrite !append_cons. cbn [fnmatch]. rewrite Hc, Ascii.eqb_refl. by apply IH.
Qed.

Lemma fnmatch_star (suf mid : string) :
  has_char "*" suf = false ->
  fnmatch (String "*" suf) (mid +:+ suf) = true.
Proof.
  intros H. induction mid as [|c mid IH].
  - rewrite append_nil. cbn [fnmatch]. rewrite Ascii.eqb_refl.
    destruct suf; [reflexivity|]. rewrite (fnmatch_refl _ H). reflexivity.
  - rewrite append_cons. cbn [fnmatch] in *. rewrite Ascii.eqb_refl in *.
    rewrite IH. apply orb_true_r.
Qed.

(** A cache file name matches the pattern the janitor globs for it. *)
Lemma fnmatch_data_file (u g : string) (a : date) :
  has_char "*" u = false -> has_char "*" g = false ->
  fnmatch (u +:+ "_" +:+ g +:+ "_data_*.csv") (data_file u g a) = true.
Proof.
  intros Hu Hg. unfold data_file.
  rewrite (fnmatch_prefix _ _ _ Hu).
  rewrite (fnmatch_prefix "_") by reflexivity.
  rewrite (fnmatch_prefix _ _ _ Hg).
  change "_data_*.csv"%string with ("_data_" +:+ String "*" ".csv").
  rewrite (fnmatch_prefix "_data_") by reflexivity.
  by apply fnmatch_star.
Qed.

(** ** The janitor *)

Lemma set_files_id (w : world) : set_files (fun fs => fs) w = w.
Proof. by destruct w. Qed.

Lemma set_files_compose (g h : gmap string frame -> gmap string frame) (w : world) :
  set_files g (set_files h w) = set_files (fun fs => g (h fs)) w.
Proof. reflexivity. Qed.

Lemma sweep_file_spec (today : date) (n : string) (w : world) :
  sweep_file today n w =
    (if stale today n then set_files (delete n) w else w, Return tt).
Proof.
  unfold sweep_file, stale.
  destruct (file_date n) as [d|]; [destruct (Date.ltb d today)|]; reflexivity.
Qed.

Lemma for_each_sweep (today : date) (l : list string) (w : world) :
  for_each (sweep_file today) l w = (set_files (remove_stale today l) w, Return tt).
Proof.
  revert w. induction l as [|n l IH]; intros w.
  - cbn. by rewrite set_files_id.
  - cbn [for_each]. unfold mbind, M_bind, bind.
    rewrite sweep_file_spec, IH. unfold remove_stale. cbn [foldl].
    destruct (stale today n); reflexivity.
Qed.

Lemma remove_stale_lookup (today : date) (l : list string)
    (fs : gmap string frame) (n : string) :
  remove_stale today l fs !! n =
    if bool_decide (n ∈ l) && stale today n then None else fs !! n.
Proof.
  revert fs. induction l as [|a l IH]; intros fs; [reflexivity|].
  change (remove_stale today (a :: l) fs)
    with (remove_stale today l (if stale today a then delete a fs else fs)).
  rewrite IH. destruct (decide (n = a)) as [->|Hne].
  - rewrite (bool_decide_eq_true_2 (a ∈ a :: l)) by (apply elem_of_cons; auto).
    destruct (stale today a) eqn:E; cbn [andb].
    + rewrite lookup_delete_eq. by destruct (bool_decide (a ∈ l)).
    + by rewrite andb_false_r.
  - assert (bool_decide (n ∈ a :: l) = bool_decide (n ∈ l)) as ->.
    { apply bool_decide_ext. rewrite elem_of_cons. intuition congruence. }
    destruct (stale today a); [|reflexivity].
    rewrite lookup_delete_ne by done. reflexivity.
Qed.

Lemma sweep_pattern_spec (today : date) (pat : string) (w : world) :
  exists fs',
    sweep_pattern today pat w = (set_files (fun _ => fs') w, Return tt)
    /\ forall n, fs' !! n =
         if fnmatch pat n && stale today n then None else files w !! n.
Proof.
  unfold sweep_pattern, mbind, M_bind, bind, glob.
  rewrite for_each_sweep. eexists. split; [reflexivity|].
  intros n. rewrite remove_stale_lookup.
  destruct (fnmatch pat n) eqn:Ep; destruct (stale today n) eqn:Es;
    rewrite ?andb_false_r; cbn [andb]; try reflexivity.
  - case_bool_decide as Hin; [reflexivity|].
    destruct (files w !! n) as [f|] eqn:Ef; [|reflexivity].
    exfalso. apply Hin. apply list_elem_of_filter. split; [done|].
    apply list_elem_of_fmap. exists (n, f). split; [done|].
    by apply elem_of_map_to_list.
  - case_bool_decide as Hin; [|reflexivity].
    apply list_elem_of_filter in Hin as [Hp _]. congruence.
Qed.

(** What the janitor leaves of the working directory: a file is gone
    exactly when one of the four patterns matches it and its name carries a
    date before today; nothing else changes. *)
Lemma cleanup_spec (w : world) :
  exists fs',
    cleanup_old_data_files w = (set_files (fun _ => fs') w, Return tt)
    /\ forall n, fs' !! n =
         if swept n && stale (clock w) n then None else files w !! n.
Proof.
  unfold cleanup_old_data_files, today_, mbind, M_bind, bind.
  cbn [for_each]. unfold mbind, M_bind, bind.
  destruct (sweep_pattern_spec (clock w) ("imperial" +:+ "_daily_data_*.csv") w)
    as (f1 & -> & H1).
  destruct (sweep_pattern_spec (clock w) ("imperial" +:+ "_hourly_data_*.csv")
              (set_files (fun _ => f1) w)) as (f2 & -> & H2).
  destruct (sweep_pattern_spec (clock w) ("metric" +:+ "_daily_data_*.csv")
              (set_files (fun _ => f2) (set_files (fun _ => f1) w)))
    as (f3 & -> & H3).
  destruct (sweep_pattern_spec (clock w) ("metric" +:+ "_hourly_data_*.csv")
              (set_files (fun _ => f3) (set_files (fun _ => f2) (set_files (fun _ => f1) w))))
    as (f4 & -> & H4).
  exists f4. split; [reflexivity|].
  intros n. rewrite H4. cbn [files set_files]. rewrite H3. cbn [files set_files].
  rewrite H2. cbn [files set_files]. rewrite H1.
  unfold swept, cleanup_patterns. cbn [existsb].
  change ("imperial" +:+ "_daily_data_*.csv") with "imperial_daily_data_*.csv"%string.
  change ("imperial" +:+ "_hourly_data_*.csv") with "imperial_hourly_data_*.csv"%string.
  change ("metric" +:+ "_daily_data_*.csv") with "metric_daily_data_*.csv"%string.
  change ("metric" +:+ "_hourly_data_*.csv") with "metric_hourly_data_*.csv"%string.
  destruct (stale (clock w) n); rewrite ?andb_false_r; [|reflexivity].
  rewrite !andb_true_r.
  destruct (fnmatch "imperial_daily_data_*.csv" n),
           (fnmatch "imperial_hourly_data_*.csv" n),
           (fnmatch "metric_daily_data_*.csv" n),
           (fnmatch "metric_hourly_data_*.csv" n); reflexivity.
Qed.

(** ** The synthetic fallback *)

Lemma uniform_within (lo hi : Q) (r : nat -> Q) (n : nat) :
  (lo <= hi)%Q -> unit_draws r ->
  within lo hi (Some (Floats (map (fun k => (lo + (hi - lo) * r k)%Q) (seq 0 n)))) n.
Proof.
  intros Hlh Hr. eexists. split; [reflexivity|]. split.
  - by rewrite length_map, length_seq.
  - apply Forall_map, Forall_forall. intros k _. cbn beta.
    destruct (Hr k). split; nra.
Qed.

Lemma unit_draws_shift (r : nat -> Q) (n : nat) :
  unit_draws r -> unit_draws (fun k => r (n + k)%nat).
Proof. intros H k. apply H. Qed.

Lemma sampling_ranges_ordered (u : string) :
  Forall (fun e => (e.2.1 <= e.2.2)%Q) (sampling_ranges u).
Proof.
  unfold sampling_ranges, select_ranges.
  destruct (String.eqb u "imperial"); cbn [temp_max_range temp_min_range
    temp_mean_range wind_range precip_range fst snd];
    repeat constructor; cbn [fst snd]; lra.
Qed.

(** The dummy table: it is always built, it has the given dates and one
    cell per date in every column, the world changes only in its random
    source, and the cells are in their sampling ranges when the raw draws
    are in the unit interval. *)
Lemma dummy_frame_spec (u : string) (dates : list date) (w : world) :
  exists df rng',
    dummy_frame u dates w
      = (mkworld (files w) (api_calls w) rng' (clock w), Return df)
    /\ get_col "date" df = Some (Dates dates)
    /\ n_rows df = length dates
    /\ (unit_draws (rng w) ->
        Forall (fun e => within e.2.1 e.2.2 (get_col e.1 df) (length dates))
               (sampling_ranges u)).
Proof.
  unfold dummy_frame. unfold mbind, M_bind, bind.
  cbn [uniform lift_result fst snd files api_calls rng clock].
  cbn [DataFrame forallb col_len snd].
  rewrite !length_map, !length_seq, !Nat.eqb_refl. cbn [andb].
  eexists _, _. split; [reflexivity|].
  split; [reflexivity|]. split; [reflexivity|].
  intros Hr. pose proof (sampling_ranges_ordered u) as Ho.
  unfold sampling_ranges in *.
  repeat match goal with
  | H : Forall _ (_ :: _) |- _ => apply Forall_cons_1 in H as [? H]
  end.
  cbn [fst snd] in *.
  repeat (apply Forall_cons_2; [
    cbn [get_col fst snd String.eqb Ascii.eqb Bool.eqb];
    apply uniform_within; [assumption | intros k; apply Hr] |]).
  apply Forall_nil_2.
Qed.

Lemma add_days_in_range (a : date) (k : Z) :
  0 < toordinal a + k <= MAXORDINAL ->
  add_days a k = Return (fromordinal (toordinal a + k)).
Proof.
  intros H. unfold add_days.
  destruct (Z.ltb_spec 0 (toordinal a + k)); [|lia].
  destruct (Z.leb_spec (toordinal a + k) MAXORDINAL); [reflexivity|lia].
Qed.

Lemma mapM_add_days (a : date) (l : list Z) :
  Forall (fun k => 0 < toordinal a + k <= MAXORDINAL) l ->
  mapM (add_days a) l = Return (map (fun k => fromordinal (toordinal a + k)) l).
Proof.
  induction 1 as [|k l Hk _ IH]; [reflexivity|].
  cbn [mapM map]. rewrite (add_days_in_range _ _ Hk). cbn. rewrite IH. reflexivity.
Qed.

(** The days of the window are consecutive: their ordinals run from 31
    before today's to 6 after it. *)
Lemma window_ordinals (today : date) :
  31 < toordinal today ->
  map toordinal (window today)
  = map (fun i => toordinal today - 31 + Z.of_nat i) (seq 0 38).
Proof.
  intros Hlo. unfold window. rewrite map_map. apply map_ext_in.
  intros i Hi. apply in_seq in Hi. rewrite toordinal_fromordinal; lia.
Qed.

Lemma dummy_dates_spec (today : date) :
  31 < toordinal today -> toordinal today + 6 <= MAXORDINAL ->
  dummy_dates today = Return (window today).
Proof.
  intros Hlo Hhi. unfold dummy_dates.
  rewrite !mapM_add_days.
  - reflexivity.
  - unfold future_offsets. apply Forall_map, Forall_forall. intros i Hi.
    apply elem_of_seq in Hi. cbn beta. lia.
  - unfold past_offsets. apply Forall_map, Forall_forall. intros i Hi.
    apply elem_of_seq in Hi. cbn beta. lia.
Qed.

Lemma mapM_add_days_raise (a : date) (l : list Z) (e : exn) :
  mapM (add_days a) l = Raise e -> e = OverflowError.
Proof.
  revert e. induction l as [|k l IH]; intros e; [done|].
  cbn [mapM]. destruct (add_days a k) as [b|e1] eqn:Ek.
  - unfold mbind at 1, py_result_bind at 1.
    destruct (mapM (add_days a) l); [done|].
    intros [= <-]. by apply IH.
  - intros [= <-]. unfold add_days in Ek. cbv zeta in Ek.
    destruct ((0 <? toordinal a + k) && (toordinal a + k <=? MAXORDINAL));
      [discriminate|by injection Ek as <-].
Qed.

Lemma dummy_dates_raise (today : date) (e : exn) :
  dummy_dates today = Raise e -> e = OverflowError.
Proof.
  unfold dummy_dates.
  destruct (mapM (add_days today) past_offsets) as [p|e1] eqn:E1.
  - destruct (mapM (add_days today) future_offsets) as [f|e2] eqn:E2; [done|].
    intros [= <-]. by eapply mapM_add_days_raise.
  - intros [= <-]. by eapply mapM_add_days_raise.
Qed.

Section Fetch.

Variable weather_api : nat -> params -> py_result (list response).

(** When the body of the [try] raises, it has written no file and
    [hourly_dataframe] is still unassigned. *)
Lemma try_block_raise (p : params) (u : string) (t : date) (w : world) :
  raises (try_block weather_api p u t (w, no_locals)).2 ->
  exists l e,
    try_block weather_api p u t (w, no_locals) = ((called w, l), Raise e)
    /\ hourly_dataframe l = None.
Proof.
  unfold try_block. unfold mbind, M_bind, bind.
  cbn [lift call_weather_api lift_result fst snd].
  destruct (weather_api (api_calls w) p) as [rs|e]; [|by eexists _, _].
  destruct (first_response rs) as [r|e]; [|by eexists _, _].
  destruct (decode_daily (Daily r)) as [d|e]; [|by eexists _, _].
  cbn [assign_daily fst snd].
  destruct (decode_hourly (Hourly r)) as [h|e]; [|by eexists _, _].
  cbn. intros [].
Qed.

Lemma provider_error_fails (lat lon : Q) (u : string) (w : world) (e : exn) :
  weather_api (api_calls w) (request lat lon u) = Raise e ->
  fetch_fails weather_api lat lon u w.
Proof.
  intros H. unfold fetch_fails, try_block, mbind, M_bind, bind.
  cbn [lift call_weather_api fst snd]. rewrite H. exact I.
Qed.

(** What [get_weather_data] does once the fetch has failed: it raises, and
    when the window of dates can be built it has by then written the dummy
    table to today's daily file. *)
Lemma get_weather_data_fallback (lat lon : Q) (u : string) (w : world) :
  fetch_fails weather_api lat lon u w ->
  raises (get_weather_data weather_api lat lon u w).2
  /\ api_calls (get_weather_data weather_api lat lon u w).1 = S (api_calls w)
  /\ forall dates, dummy_dates (clock w) = Return dates ->
       exists df rng',
         dummy_frame u dates (called w)
           = (mkworld (files w) (S (api_calls w)) rng' (clock w), Return df)
         /\ get_weather_data weather_api lat lon u w
            = (mkworld (<[data_file u "daily" (clock w) := df]> (files w))
                       (S (api_calls w)) rng' (clock w),
               Raise UnboundLocalError).
Proof.
  intros Hf. apply try_block_raise in Hf as (l & e & Ht & Hl).
  destruct (dummy_dates (clock w)) as [dates|e'] eqn:Ed.
  - destruct (dummy_frame_spec u dates (called w)) as (df & rng' & Hdf & _).
    cbn [files api_calls clock called] in Hdf.
    assert (E : get_weather_data weather_api lat lon u w
                = (mkworld (<[data_file u "daily" (clock w) := df]> (files w))
                           (S (api_calls w)) rng' (clock w),
                   Raise UnboundLocalError)).
    { unfold get_weather_data, today_, run_locals, try_except.
      unfold mbind, M_bind, bind. rewrite Ht.
      unfold except_block, mbind, M_bind, bind, lift_result, lift.
      cbn [fst snd]. rewrite Ed, Hdf.
      cbn [assign_daily to_csv read_local fst snd daily_dataframe
           hourly_dataframe to_datetime]. rewrite Hl. reflexivity. }
    rewrite E. split; [exact I|]. split; [reflexivity|].
    intros dates' [= <-]. by exists df, rng'.
  - assert (E : get_weather_data weather_api lat lon u w = (called w, Raise e')).
    { unfold get_weather_data, today_, run_locals, try_except.
      unfold mbind, M_bind, bind. rewrite Ht.
      unfold except_block, mbind, M_bind, bind, lift_result.
      rewrite Ed. reflexivity. }
    rewrite E. split; [exact I|]. split; [reflexivity|]. intros dates' [=].
Qed.

(** The fetch succeeds: both tables are written under today's names and
    returned. *)
Lemma get_weather_data_success (lat lon : Q) (u : string) (w : world)
    (rs : list response) (r : response) (d h : frame) :
  weather_api (api_calls w) (request lat lon u) = Return rs ->
  first_response rs = Return r ->
  decode_daily (Daily r) = Return d ->
  decode_hourly (Hourly r) = Return h ->
  get_weather_data weather_api lat lon u w
  = (set_files (fun fs => <[data_file u "daily" (clock w) := d]>
                           (<[data_file u "hourly" (clock w) := h]> fs))
               (called w),
     Return (d, h)).
Proof.
  intros Ha Hr Hd Hh.
  unfold get_weather_data, today_, run_locals, try_except, try_block.
  unfold mbind, M_bind, bind, lift, lift_result, call_weather_api.
  cbn [fst snd]. rewrite Ha, Hr, Hd. cbn [assign_daily fst snd]. rewrite Hh.
  reflexivity.
Qed.

(** Every call of [get_weather_data] calls the provider exactly once. *)
Lemma get_weather_data_calls_once (lat lon : Q) (u : string) (w : world) :
  api_calls (get_weather_data weather_api lat lon u w).1 = S (api_calls w).
Proof.
  destruct (weather_api (api_calls w) (request lat lon u)) as [rs|e] eqn:Ha.
  2:{ eapply get_weather_data_fallback, provider_error_fails, Ha. }
  assert (Hfail : forall e,
    (try_block weather_api (request lat lon u) u (clock w) (w, no_locals)).2
      = Raise e -> api_calls (get_weather_data weather_api lat lon u w).1
                   = S (api_calls w)).
  { intros e He. apply get_weather_data_fallback. unfold fetch_fails.
    by rewrite He. }
  destruct (first_response rs) as [r|e] eqn:Hr.
  2:{ apply (Hfail e). unfold try_block, mbind, M_bind, bind, lift,
        lift_result, call_weather_api. cbn [fst snd]. by rewrite Ha, Hr. }
  destruct (decode_daily (Daily r)) as [d|e] eqn:Hd.
  2:{ apply (Hfail e). unfold try_block, mbind, M_bind, bind, lift,
        lift_result, call_weather_api. cbn [fst snd]. by rewrite Ha, Hr, Hd. }
  destruct (decode_hourly (Hourly r)) as [h|e] eqn:Hh.
  2:{ apply (Hfail e). unfold try_block, mbind, M_bind, bind, lift,
        lift_result, call_weather_api. cbn [fst snd]. rewrite Ha, Hr, Hd.
      cbn [assign_daily fst snd]. by rewrite Hh. }
  by rewrite (get_weather_data_success _ _ _ _ _ _ _ _ Ha Hr Hd Hh).
Qed.

(** The table the fallback leaves in today's daily file. *)
Lemma fallback_table (lat lon : Q) (u : string) (w : world) :
  fetch_fails weather_api lat lon u w ->
  31 < toordinal (clock w) -> toordinal (clock w) + 6 <= MAXORDINAL ->
  exists df,
    files (get_weather_data weather_api lat lon u w).1
      !! data_file u "daily" (clock w) = Some df
    /\ get_col "date" df = Some (Dates (window (clock w)))
    /\ n_rows df = 38%nat
    /\ (unit_draws (rng w) ->
        Forall (fun e => within e.2.1 e.2.2 (get_col e.1 df) 38)
               (sampling_ranges u)).
Proof.
  intros Hf Hlo Hhi.
  destruct (get_weather_data_fallback lat lon u w Hf) as (_ & _ & H).
  destruct (H _ (dummy_dates_spec _ Hlo Hhi)) as (df & rng' & Hdf & ->).
  destruct (dummy_frame_spec u (window (clock w)) (called w))
    as (df' & rng'' & Hdf' & Hdate & Hrows & Hin).
  rewrite Hdf in Hdf'. injection Hdf' as -> ->.
  exists df'. cbn [fst files]. rewrite lookup_insert_eq.
  split; [reflexivity|]. split; [exact Hdate|]. split; [exact Hrows|].
  exact Hin.
Qed.

End Fetch.

(** ** Provider failure (C1) *)

(** C1 (the code does not do this): when the provider call fails,
    [get_weather_data] does not return the dummy table.  For every unit
    system, every world and every error of the provider, the call ends in
    an exception: the [return] statement reads [hourly_dataframe], which
    the handler never assigns ([UnboundLocalError]); for a clock within 31
    days of the first supported date the handler itself raises
    [OverflowError]. *)
Theorem provider_failure_escapes (e : exn) (lat lon : Q) (u : string) (w : world) :
  exists e',
    (get_weather_data (fun _ _ => Raise e) lat lon u w).2 = Raise e'
    /\ (e' = UnboundLocalError \/ e' = OverflowError).
Proof.
  assert (Hf : fetch_fails (fun _ _ => Raise e) lat lon u w)
    by (by eapply provider_error_fails).
  destruct (get_weather_data_fallback _ lat lon u w Hf) as (_ & _ & H).
  destruct (dummy_dates (clock w)) as [dates|e'] eqn:Ed.
  - destruct (H dates eq_refl) as (df & rng' & _ & ->). eauto.
  - clear H. apply try_block_raise in Hf as (l & e0 & Ht & Hl).
    exists e'. split.
    + unfold get_weather_data, today_, run_locals, try_except.
      unfold mbind, M_bind, bind. rewrite Ht.
      unfold except_block, mbind, M_bind, bind, lift_result.
      rewrite Ed. reflexivity.
    + right. by eapply dummy_dates_raise.
Qed.

(** On an ordinary day the exception is [UnboundLocalError], raised after
    the dummy table has been written. *)
Example provider_down_unbound_local :
  (get_weather_data provider_down default_latitude default_longitude
     "imperial" fresh_world).2 = Raise UnboundLocalError.
Proof. vm_compute. reflexivity. Qed.

(** ** Cache lookup before fetching (C2) *)

Section Callers.

Variable weather_api : nat -> params -> py_result (list response).

Lemma cleanup_keeps_calls (w : world) :
  api_calls (cleanup_old_data_files w).1 = api_calls w.
Proof. destruct (cleanup_spec w) as (fs' & -> & _). reflexivity. Qed.

(** Fetching and then sweeping calls the provider once. *)
Lemma fetch_then_cleanup_calls (k : frame -> frame -> globals) (u : string) (w : world) :
  api_calls
    (('(d, h) ← get_weather_data weather_api default_latitude default_longitude u;
      cleanup_old_data_files;; mret (k d h)) w).1
  = S (api_calls w).
Proof.
  unfold mbind, M_bind, bind.
  pose proof (get_weather_data_calls_once weather_api default_latitude
                default_longitude u w) as Hc.
  destruct (get_weather_data weather_api default_latitude default_longitude u w)
    as [w1 [[d h]|e]]; cbn [fst] in Hc; [|exact Hc].
  pose proof (cleanup_keeps_calls w1) as Hk.
  destruct (cleanup_old_data_files w1) as [w2 [[]|e]]; cbn [fst] in Hk;
    cbn; congruence.
Qed.

(** The dashboard callback looks the unit system's two files up first and
    reads them, without calling the provider, when both are there. *)
Lemma update_dashboard_hit (g : globals) (u : string) (w : world) (d h : frame) :
  files w !! data_file u "daily" (today g) = Some d ->
  files w !! data_file u "hourly" (today g) = Some h ->
  update_dashboard weather_api g u w = (w, Return (mkglobals (today g) d h)).
Proof.
  intros Hd Hh. unfold update_dashboard, path_exists, read_csv.
  unfold mbind, M_bind, bind. rewrite Hd.
  rewrite bool_decide_eq_true_2 by eauto. rewrite Hh.
  rewrite bool_decide_eq_true_2 by eauto. cbn [negb orb]. rewrite Hd, Hh.
  reflexivity.
Qed.

(** So does the hourly callback with the hourly file. *)
Lemma update_hourly_graphs_hit (g : globals) (u : string) (w : world) (h : frame) :
  files w !! data_file u "hourly" (today g) = Some h ->
  update_hourly_graphs weather_api g u w = (w, Return h).
Proof.
  intros Hh. unfold update_hourly_graphs, path_exists, read_csv.
  unfold mbind, M_bind, bind. rewrite Hh.
  rewrite bool_decide_eq_true_2 by eauto. cbn [negb]. rewrite Hh.
  reflexivity.
Qed.

(** When one of the two files is missing, the callback fetches. *)
Lemma update_dashboard_miss (g : globals) (u : string) (w : world) :
  files w !! data_file u "daily" (today g) = None
  \/ files w !! data_file u "hourly" (today g) = None ->
  api_calls (update_dashboard weather_api g u w).1 = S (api_calls w).
Proof.
  intros Hmiss. unfold update_dashboard, path_exists.
  unfold mbind at 1 2, M_bind at 1 2, bind at 1 2.
  pose proof (fetch_then_cleanup_calls (mkglobals (today g)) u w) as Hfetch.
  destruct (files w !! data_file u "daily" (today g)) as [d|] eqn:Ed.
  - destruct Hmiss as [|Hh]; [done|].
    rewrite bool_decide_eq_true_2 by eauto. cbn [fst snd]. rewrite Hh.
    rewrite bool_decide_eq_false_2 by (by intros [? ?]).
    exact Hfetch.
  - rewrite bool_decide_eq_false_2 by (by intros [? ?]). exact Hfetch.
Qed.

(** C2 (the code does not do this at start-up): the module-level block
    looks for [daily_data_<today>.csv], a name without the unit system,
    which [get_weather_data] never writes.  Whenever that name is absent
    the provider is called, whether or not today's
    [imperial_daily_data_<today>.csv] and [imperial_hourly_data_<today>.csv]
    are in the directory. *)
Theorem startup_ignores_unit_cache (w : world) :
  files w !! ("daily_data_" +:+ isoformat (clock w) +:+ ".csv") = None ->
  api_calls (startup weather_api w).1 = S (api_calls w).
Proof.
  intros Hnone. unfold startup, today_, path_exists.
  unfold mbind at 1 2 3, M_bind at 1 2 3, bind at 1 2 3. cbn [fst snd].
  rewrite Hnone. rewrite bool_decide_eq_false_2 by (by intros [? ?]).
  cbn [andb].
  apply (fetch_then_cleanup_calls
           (fun d h => mkglobals (clock w) (to_datetime d) (to_datetime h))).
Qed.

End Callers.

(** With today's imperial tables in the directory, start-up still calls the
    provider, while the dashboard callback reads the files. *)
Lemma startup_ignores_unit_cache_witness :
  is_Some (files cached_world !! data_file "imperial" "daily" (clock cached_world))
  /\ is_Some (files cached_world !! data_file "imperial" "hourly" (clock cached_world))
  /\ api_calls (startup provider_up cached_world).1 = 1%nat.
Proof.
  split; [by vm_compute; eexists|]. split; [by vm_compute; eexists|].
  apply (startup_ignores_unit_cache provider_up cached_world).
  vm_compute. reflexivity.
Defined.

Example dashboard_reads_unit_cache :
  api_calls
    (update_dashboard provider_up (mkglobals sample_day [] []) "imperial"
       cached_world).1 = 0%nat.
Proof. vm_compute. reflexivity. Qed.

(** ** The janitor deletes exactly the stale entries (C3) *)

Lemma date_le_iff (a b : date) : Date.le a b <-> a = b \/ Date.lt a b.
Proof.
  destruct a as [y m d], b as [y' m' d'].
  unfold Date.le, Date.lt, Date.ltb. cbn [year month day].
  rewrite !orb_false_iff, !orb_true_iff, !andb_false_iff, !andb_true_iff,
    !orb_false_iff, !orb_true_iff, !andb_false_iff, !andb_true_iff,
    !Z.ltb_lt, !Z.ltb_ge, !Z.eqb_eq, !Z.eqb_neq.
  split.
  - intros H.
    destruct (decide (y = y')) as [->|]; [|right; lia].
    destruct (decide (m = m')) as [->|]; [|right; lia].
    destruct (decide (d = d')) as [->|]; [by left|right; lia].
  - intros [[= -> -> ->]|H]; lia.
Qed.

(** C3: for the cache files of both unit systems and both granularities,
    the sweep removes the file when its fetch date is before today and
    leaves it as it is when the fetch date is today or later; and whatever
    file the sweep removes has a name whose date field parses to a date
    before today.  The sweep itself always returns normally. *)
Theorem cleanup_deletes_exactly_stale (w : world) (u g : string) (d : date) :
  u ∈ ["imperial"; "metric"]%string -> g ∈ ["daily"; "hourly"]%string ->
  valid d ->
  (cleanup_old_data_files w).2 = Return tt
  /\ (Date.lt d (clock w) ->
      files (cleanup_old_data_files w).1 !! data_file u g d = None)
  /\ (d = clock w \/ Date.lt (clock w) d ->
      files (cleanup_old_data_files w).1 !! data_file u g d
      = files w !! data_file u g d)
  /\ (forall n,
        files (cleanup_old_data_files w).1 !! n = files w !! n
        \/ (files (cleanup_old_data_files w).1 !! n = None
            /\ exists d', file_date n = Some d' /\ Date.lt d' (clock w))).
Proof.
  intros Hu Hg Hv.
  destruct (cleanup_spec w) as (fs' & -> & Hfs). cbn [fst snd files set_files].
  assert (Hdate : file_date (data_file u g d) = Some d).
  { apply file_date_data_file; [| |exact Hv].
    - apply elem_of_cons in Hu as [->|Hu]; [reflexivity|].
      apply elem_of_cons in Hu as [->|Hu]; [reflexivity|]. by apply elem_of_nil in Hu.
    - apply elem_of_cons in Hg as [->|Hg]; [reflexivity|].
      apply elem_of_cons in Hg as [->|Hg]; [reflexivity|]. by apply elem_of_nil in Hg. }
  assert (Hswept : swept (data_file u g d) = true).
  { unfold swept, cleanup_patterns. cbn [existsb].
    apply elem_of_cons in Hu as [->|Hu];
      [|apply elem_of_cons in Hu as [->|Hu]; [|by apply elem_of_nil in Hu]];
    (apply elem_of_cons in Hg as [->|Hg];
      [|apply elem_of_cons in Hg as [->|Hg]; [|by apply elem_of_nil in Hg]]).
    - rewrite (fnmatch_data_file "imperial" "daily") by reflexivity. reflexivity.
    - rewrite (fnmatch_data_file "imperial" "hourly") by reflexivity.
      apply orb_true_r.
    - rewrite (fnmatch_data_file "metric" "daily") by reflexivity.
      rewrite !orb_true_r. reflexivity.
    - rewrite (fnmatch_data_file "metric" "hourly") by reflexivity.
      rewrite !orb_true_r. reflexivity. }
  split; [reflexivity|]. split; [|split].
  - intros Hlt. rewrite Hfs, Hswept. unfold stale. rewrite Hdate, Hlt. reflexivity.
  - intros Hle.
    assert (Hnlt : Date.ltb d (clock w) = false).
    { apply date_le_iff. destruct Hle as [->|]; auto. }
    rewrite Hfs. unfold stale. rewrite Hdate, Hnlt, andb_false_r. reflexivity.
  - intros n. rewrite Hfs.
    destruct (swept n && stale (clock w) n) eqn:E; [right|by left].
    split; [reflexivity|]. apply andb_prop in E as [_ E]. unfold stale in E.
    destruct (file_date n) as [d'|]; [|done]. by exists d'.
Qed.

Lemma cleanup_deletes_exactly_stale_witness :
  files (cleanup_old_data_files four_files).1
    !! data_file "imperial" "daily" (mkdate 2024 2 28) = None
  /\ files (cleanup_old_data_files four_files).1
       !! data_file "imperial" "daily" (mkdate 2024 3 2)
     = files four_files !! data_file "imperial" "daily" (mkdate 2024 3 2).
Proof.
  split.
  - apply (cleanup_deletes_exactly_stale four_files "imperial" "daily"
             (mkdate 2024 2 28)); [set_solver|set_solver|reflexivity|reflexivity].
  - apply (cleanup_deletes_exactly_stale four_files "imperial" "daily"
             (mkdate 2024 3 2)); [set_solver|set_solver|reflexivity|].
    right. reflexivity.
Defined.

(** The example of the specification: of the files dated two days ago,
    yesterday, today and tomorrow, the first two are gone after the sweep
    and the other two are left. *)
Example cleanup_four_dates :
  dom (files (cleanup_old_data_files four_files).1)
  = {[ "imperial_daily_data_2024-03-01.csv"%string;
       "imperial_daily_data_2024-03-02.csv"%string ]}.
Proof. vm_compute. reflexivity. Qed.

(** ** Unit resolution (C6) *)

(** C6 as stated fails: a selector that is neither ["imperial"] nor
    ["metric"] is not rejected; it resolves to the metric units, and the
    fetch made with it returns normally. *)
Lemma unknown_system_resolves_to_metric :
  resolve_units "kelvin" = metric_profile
  /\ returns (get_weather_data provider_up default_latitude default_longitude
                "kelvin" fresh_world).2.
Proof. split; [reflexivity|]. vm_compute. exact I. Qed.

(** C6, amended: unit resolution never fails.  ["imperial"] gives
    Fahrenheit, mph and inch; every other string, ["metric"] included,
    gives Celsius, km/h and mm.  The three units always belong to one
    system. *)
Theorem resolve_units_total (unit_system : string) :
  (unit_system = "imperial"%string /\ resolve_units unit_system = imperial_profile)
  \/ (unit_system <> "imperial"%string /\ resolve_units unit_system = metric_profile).
Proof.
  unfold resolve_units.
  destruct (String.eqb_spec unit_system "imperial") as [->|Hne]; [left|right];
    split; try done.
Qed.

(** ** The synthetic table: rows and ranges (C7) *)

Lemma within_weaken (lo hi lo' hi' : Q) (c : option column) (n : nat) :
  (lo' <= lo)%Q -> (hi <= hi')%Q -> within lo hi c n -> within lo' hi' c n.
Proof.
  intros Hlo Hhi (vals & Hc & Hn & Hall). exists vals.
  split; [exact Hc|]. split; [exact Hn|].
  eapply Forall_impl; [exact Hall|]. cbn beta. intros v [? ?]. split; lra.
Qed.

Lemma sampling_within_declared (u : string) (df : frame) (n : nat) :
  Forall (fun e => within e.2.1 e.2.2 (get_col e.1 df) n) (sampling_ranges u) ->
  Forall (fun e => within e.2.1 e.2.2 (get_col e.1 df) n) (declared_ranges u).
Proof.
  unfold sampling_ranges, declared_ranges, select_ranges.
  destruct (String.eqb u "imperial");
    cbn [temp_max_range temp_min_range temp_mean_range wind_range precip_range];
    intros H;
    repeat match goal with
    | H : Forall _ (_ :: _) |- _ => apply Forall_cons_1 in H as [? H]
    end;
    repeat (apply Forall_cons_2;
      [cbn [fst snd] in *; eapply within_weaken; [| |eassumption]; lra|]);
    apply Forall_nil_2.
Qed.

(** C7: when the fetch fails, the table that the handler writes to today's
    daily file has 38 rows, its dates are the 38 consecutive days from 31
    days before today to 6 days after it (their ordinals are consecutive),
    and every numeric column has 38 cells, each inside the range declared
    for the unit system. *)
Theorem fallback_rows_and_ranges
    (weather_api : nat -> params -> py_result (list response))
    (lat lon : Q) (u : string) (w : world) :
  fetch_fails weather_api lat lon u w ->
  unit_draws (rng w) ->
  31 < toordinal (clock w) -> toordinal (clock w) + 6 <= MAXORDINAL ->
  exists df,
    files (get_weather_data weather_api lat lon u w).1
      !! data_file u "daily" (clock w) = Some df
    /\ n_rows df = 38%nat
    /\ get_col "date" df = Some (Dates (window (clock w)))
    /\ map toordinal (window (clock w))
       = map (fun i => toordinal (clock w) - 31 + Z.of_nat i) (seq 0 38)
    /\ Forall (fun e => within e.2.1 e.2.2 (get_col e.1 df) 38)
              (declared_ranges u).
Proof.
  intros Hf Hr Hlo Hhi.
  destruct (fallback_table weather_api lat lon u w Hf Hlo Hhi)
    as (df & Hfile & Hdate & Hrows & Hin).
  exists df. split; [exact Hfile|]. split; [exact Hrows|]. split; [exact Hdate|].
  split; [by apply window_ordinals|].
  apply sampling_within_declared, Hin, Hr.
Qed.

Lemma fresh_world_draws : unit_draws (rng fresh_world).
Proof. intros k. cbn. split; lra. Qed.

Lemma fallback_rows_and_ranges_witness :
  exists df,
    files (get_weather_data provider_down default_latitude default_longitude
             "imperial" fresh_world).1
      !! data_file "imperial" "daily" (clock fresh_world) = Some df
    /\ n_rows df = 38%nat
    /\ get_col "date" df = Some (Dates (window (clock fresh_world)))
    /\ map toordinal (window (clock fresh_world))
       = map (fun i => toordinal (clock fresh_world) - 31 + Z.of_nat i) (seq 0 38)
    /\ Forall (fun e => within e.2.1 e.2.2 (get_col e.1 df) 38)
              (declared_ranges "imperial").
Proof.
  apply (fallback_rows_and_ranges provider_down default_latitude
           default_longitude "imperial" fresh_world).
  - exact I.
  - exact fresh_world_draws.
  - reflexivity.
  - vm_compute. discriminate.
Defined.

(** The window around 2024-03-01 runs from 2024-01-30 to 2024-03-07. *)
Example window_sample_day :
  head (window sample_day) = Some (mkdate 2024 1 30)
  /\ window sample_day !! 31%nat = Some sample_day
  /\ last (window sample_day) = Some (mkdate 2024 3 7).
Proof. vm_compute. auto. Qed.

(** ** Rounding (C8) *)

Lemma two_decimals_np_round2 (x : Q) : two_decimals (np_round2 x) = true.
Proof.
  unfold two_decimals, np_round2. apply Qeq_bool_iff.
  set (z := rint (x * 100)).
  assert (E : (inject_Z z / 100 * 100 == inject_Z z)%Q) by (field; discriminate).
  assert (F : Qfloor (inject_Z z / 100 * 100) = z)
    by (rewrite (Qfloor_comp _ _ E); apply Qfloor_Z).
  rewrite F. symmetry. exact E.
Qed.

Lemma rounded_columns_two_decimals (s : series) (names : list string) (i : nat)
    (cols : list (string * column)) :
  rounded_columns s i names = Return cols ->
  Forall (fun kc => exists vals, kc.2 = Floats vals
                    /\ Forall (fun v => two_decimals v = true) vals) cols.
Proof.
  revert i cols. induction names as [|name names IH]; intros i cols.
  - intros [= <-]. constructor.
  - cbn [rounded_columns]. destruct (values s i) as [v|e]; [|done].
    unfold mbind at 1, py_result_bind at 1.
    destruct (rounded_columns s (S i) names) as [rest|e] eqn:E; [|done].
    intros [= <-]. constructor; [|by eapply IH].
    eexists. split; [reflexivity|]. apply Forall_map, Forall_forall.
    intros x _. apply two_decimals_np_round2.
Qed.

(** The decoded daily table: every numeric cell has two decimal places. *)
Lemma decode_daily_rounded (s : series) (df : frame) (name : string) (vals : list Q) :
  decode_daily s = Return df ->
  get_col name df = Some (Floats vals) ->
  Forall (fun v => two_decimals v = true) vals.
Proof.
  unfold decode_daily.
  destruct (date_range (Time s) (TimeEnd s) (Interval s)) as [stamps|e]; [|done].
  unfold mbind at 1, py_result_bind at 1.
  destruct (rounded_columns s 0 daily_variables) as [cols|e] eqn:E; [|done].
  unfold mbind, py_result_bind. intros Hdf Hcol.
  assert (df = ("date"%string, Dates (map of_epoch stamps)) :: cols) as ->.
  { unfold DataFrame in Hdf. destruct (forallb _ cols); congruence. }
  clear Hdf. cbn [get_col] in Hcol. destruct (String.eqb "date" name); [done|].
  apply rounded_columns_two_decimals in E.
  induction E as [|[k c] cols (vs & Hc & Hvs) _ IH]; [done|].
  cbn [get_col] in Hcol. destruct (String.eqb k name); [|by apply IH].
  cbn [snd] in Hc. congruence.
Qed.

(** The decoded hourly table keeps the provider's values as they are. *)
Example decode_hourly_unrounded :
  decode_hourly two_hours
  = Return [("date"%string, Stamps [0; 3600]);
            ("temperature_2m"%string, Floats [70.123; 70.5]%Q)].
Proof. reflexivity. Qed.

(** C8 (the code does not do this for the fallback): with the provider
    down and raw draws of 1/16, the table written to the daily file holds
    61.875 in every cell of [temperature_2m_max]; the handler stores the
    samples as drawn, without the rounding to two decimal places that the
    decoding path applies. *)
Theorem fallback_values_not_rounded :
  exists df vals,
    files (get_weather_data provider_down default_latitude default_longitude
             "imperial" fresh_world).1
      !! "imperial_daily_data_2024-03-01.csv"%string = Some df
    /\ get_col "temperature_2m_max" df = Some (Floats vals)
    /\ length vals = 38%nat
    /\ Forall (fun v => (v == 61.875)%Q /\ two_decimals v = false) vals.
Proof.
  eexists _, _. split; [vm_compute; reflexivity|].
  split; [vm_compute; reflexivity|]. split; [reflexivity|].
  repeat constructor.
Qed.

(** ** Wind speeds in the synthetic table (C10) *)

Lemma Forall2_of_bounds (lo mid hi : Q) (xs ys : list Q) :
  Forall (fun v => (lo <= v /\ v <= mid)%Q) xs ->
  Forall (fun v => (mid <= v /\ v <= hi)%Q) ys ->
  length xs = length ys ->
  Forall2 Qle xs ys.
Proof.
  intros Hx. revert ys. induction Hx as [|x xs [_ Hx] _ IH]; intros ys Hy Hlen.
  - destruct ys; [constructor|done].
  - destruct ys as [|y ys]; [done|]. apply Forall_cons_1 in Hy as [[Hy _] Hys].
    constructor; [lra|]. apply IH; [exact Hys|]. by injection Hlen.
Qed.

(** C10: in the table that the handler writes, the minimum wind speed of a
    row is never above its maximum wind speed: the first is drawn below the
    lower end of the wind range and the second above it.  Nothing of the
    kind holds for temperatures: with suitable draws the maximum
    temperature of a row is below its minimum temperature. *)
Theorem fallback_wind_min_le_max
    (weather_api : nat -> params -> py_result (list response))
    (lat lon : Q) (u : string) (w : world) :
  fetch_fails weather_api lat lon u w ->
  unit_draws (rng w) ->
  31 < toordinal (clock w) -> toordinal (clock w) + 6 <= MAXORDINAL ->
  exists df mins maxs,
    files (get_weather_data weather_api lat lon u w).1
      !! data_file u "daily" (clock w) = Some df
    /\ get_col "wind_speed_10m_min" df = Some (Floats mins)
    /\ get_col "wind_speed_10m_max" df = Some (Floats maxs)
    /\ Forall2 Qle mins maxs.
Proof.
  intros Hf Hr Hlo Hhi.
  destruct (fallback_table weather_api lat lon u w Hf Hlo Hhi)
    as (df & Hfile & _ & _ & Hin).
  specialize (Hin Hr). unfold sampling_ranges in Hin.
  repeat match goal with
  | H : Forall _ (_ :: _) |- _ => apply Forall_cons_1 in H as [? H]
  end.
  cbn [fst snd] in *.
  match goal with
  | Hmin : within _ _ (get_col "wind_speed_10m_min" df) _,
    Hmax : within _ _ (get_col "wind_speed_10m_max" df) _ |- _ =>
      destruct Hmin as (mins & Emin & Lmin & Fmin);
      destruct Hmax as (maxs & Emax & Lmax & Fmax)
  end.
  exists df, mins, maxs. split; [exact Hfile|]. split; [exact Emin|].
  split; [exact Emax|].
  eapply Forall2_of_bounds; [exact Fmin|exact Fmax|congruence].
Qed.

Lemma fallback_wind_min_le_max_witness :
  exists df mins maxs,
    files (get_weather_data provider_down default_latitude default_longitude
             "metric" fresh_world).1
      !! data_file "metric" "daily" (clock fresh_world) = Some df
    /\ get_col "wind_speed_10m_min" df = Some (Floats mins)
    /\ get_col "wind_speed_10m_max" df = Some (Floats maxs)
    /\ Forall2 Qle mins maxs.
Proof.
  apply (fallback_wind_min_le_max provider_down default_latitude
           default_longitude "metric" fresh_world).
  - exact I.
  - exact fresh_world_draws.
  - reflexivity.
  - vm_compute. discriminate.
Defined.

Example temperature_order_not_enforced :
  exists df tmax tmin,
    files (get_weather_data provider_down default_latitude default_longitude
             "imperial" skewed_world).1
      !! data_file "imperial" "daily" sample_day = Some df
    /\ get_col "temperature_2m_max" df = Some (Floats tmax)
    /\ get_col "temperature_2m_min" df = Some (Floats tmin)
    /\ Forall2 (fun hi lo => (hi < lo)%Q) tmax tmin.
Proof.
  eexists _, _, _. split; [vm_compute; reflexivity|].
  split; [vm_compute; reflexivity|]. split; [vm_compute; reflexivity|].
  repeat constructor.
Qed.

(** ** The decoded row count (C9) *)

Lemma date_range_positive (s : series) :
  0 < Interval s ->
  exists stamps,
    date_range (Time s) (TimeEnd s) (Interval s) = Return stamps
    /\ length stamps = instants s.
Proof.
  intros Hpos. unfold date_range.
  destruct (Z.leb_spec (Interval s) 0); [lia|].
  eexists. split; [reflexivity|]. by rewrite length_map, length_seq.
Qed.








(** A failed decoding is a failed fetch: the fallback runs and neither of
    the decoded tables is written or returned. *)
Lemma decode_failure_is_fetch_failure
    (weather_api : nat -> params -> py_result (list response))
    (lat lon : Q) (u : string) (w : world) (r : response) (rs : list response) :
  weather_api (api_calls w) (request lat lon u) = Return (r :: rs) ->
  raises (decode_daily (Daily r)) ->
  fetch_fails weather_api lat lon u w.
Proof.
  intros Ha Hd. unfold fetch_fails, try_block.
  unfold mbind, M_bind, bind, lift, lift_result, call_weather_api.
  cbn [fst snd]. rewrite Ha. cbn [first_response fst snd].
  by destruct (decode_daily (Daily r)).
Qed.

(** * Further properties of the data path *)

(** ** File names *)

Lemma append_inv_head (u a b : string) : u +:+ a = u +:+ b -> a = b.
Proof.
  induction u as [|c u IH]; [done|]. rewrite !append_cons. intros [= H]. auto.
Qed.

Lemma daily_hourly_distinct (u : string) (t : date) :
  data_file u "daily" t <> data_file u "hourly" t.
Proof. unfold data_file. intros H. apply append_inv_head in H. discriminate. Qed.

(** X1: the name under which [get_weather_data] stores a table and the
    parsing of the janitor are inverse to each other: for a unit system and
    a granularity without an underscore and a valid date, the janitor reads
    back from the file name exactly the date that was written into it. *)
Theorem written_name_date_round_trip (u g : string) (d : date) :
  has_char "_" u = false -> has_char "_" g = false -> valid d ->
  file_date (data_file u g d) = Some d
  /\ split "_" (data_file u g d) !! 0%nat = Some u
  /\ split "_" (data_file u g d) !! 1%nat = Some g.
Proof.
  intros Hu Hg Hv. split; [by apply file_date_data_file|].
  unfold data_file.
  change ("_" +:+ g +:+ "_data_" +:+ isoformat d +:+ ".csv")
    with (String "_" (g +:+ String "_" ("data_" +:+ isoformat d +:+ ".csv"))).
  rewrite (split_field _ _ _ Hu), (split_field _ _ _ Hg). done.
Qed.

Lemma written_name_date_round_trip_witness :
  file_date (data_file "metric" "hourly" (mkdate 2024 2 29)) = Some (mkdate 2024 2 29)
  /\ split "_" (data_file "metric" "hourly" (mkdate 2024 2 29)) !! 0%nat = Some "metric"%string
  /\ split "_" (data_file "metric" "hourly" (mkdate 2024 2 29)) !! 1%nat = Some "hourly"%string.
Proof.
  apply (written_name_date_round_trip "metric" "hourly" (mkdate 2024 2 29));
    reflexivity.
Defined.

(** ** The janitor *)

(** X2: the janitor leaves alone every file whose name matches none of its
    four patterns or whose date field does not parse.  In particular a
    cache file written for any other unit-system string is never evicted,
    however old it is. *)
Theorem cleanup_leaves_other_files (w : world) (n : string) :
  swept n = false \/ file_date n = None ->
  files (cleanup_old_data_files w).1 !! n = files w !! n.
Proof.
  intros H. destruct (cleanup_spec w) as (fs' & -> & Hfs).
  cbn [fst files set_files]. rewrite Hfs.
  destruct H as [->|H]; [reflexivity|].
  unfold stale. rewrite H, andb_false_r. reflexivity.
Qed.

Lemma cleanup_leaves_other_files_witness :
  files (cleanup_old_data_files
           (set_files (insert "kelvin_daily_data_2020-01-01.csv"%string [])
                      four_files)).1
    !! "kelvin_daily_data_2020-01-01.csv"%string = Some [].
Proof.
  rewrite (cleanup_leaves_other_files _ "kelvin_daily_data_2020-01-01.csv").
  - vm_compute. reflexivity.
  - left. vm_compute. reflexivity.
Defined.

(** X3: sweeping is idempotent and touches nothing but the directory: a
    second sweep right after the first changes nothing, and the sweep
    leaves the provider call count, the random source and the clock as
    they were. *)
Theorem cleanup_idempotent (w : world) :
  cleanup_old_data_files (cleanup_old_data_files w).1
  = ((cleanup_old_data_files w).1, Return tt)
  /\ api_calls (cleanup_old_data_files w).1 = api_calls w
  /\ rng (cleanup_old_data_files w).1 = rng w
  /\ clock (cleanup_old_data_files w).1 = clock w.
Proof.
  destruct (cleanup_spec w) as (fs' & E & Hfs). rewrite E. cbn [fst].
  split; [|done].
  destruct (cleanup_spec (set_files (fun _ => fs') w)) as (fs'' & -> & Hfs').
  f_equal. unfold set_files. cbn [files api_calls rng clock]. f_equal.
  apply map_eq. intros n. rewrite Hfs'. cbn [files clock set_files].
  rewrite Hfs. by destruct (swept n && stale (clock w) n).
Qed.

(** ** [get_weather_data] as a whole *)

Lemma dummy_frame_rng (u : string) (dates : list date) (w w' : world) (r : py_result frame) :
  dummy_frame u dates w = (w', r) ->
  forall k, rng w' k = rng w (11 * length dates + k)%nat.
Proof.
  unfold dummy_frame. unfold mbind, M_bind, bind.
  cbn [uniform lift_result fst snd files api_calls rng clock].
  intros [= <- _] k. cbn [rng]. f_equal. lia.
Qed.

Section Whole.

Variable weather_api : nat -> params -> py_result (list response).

(** The two ways a failed fetch ends. *)
Lemma get_weather_data_failure (lat lon : Q) (u : string) (w : world) :
  fetch_fails weather_api lat lon u w ->
  (exists dates df rng',
     dummy_dates (clock w) = Return dates
     /\ (forall k, rng' k = rng w (11 * length dates + k)%nat)
     /\ get_weather_data weather_api lat lon u w
        = (mkworld (<[data_file u "daily" (clock w) := df]> (files w))
                   (S (api_calls w)) rng' (clock w),
           Raise UnboundLocalError))
  \/ get_weather_data weather_api lat lon u w = (called w, Raise OverflowError).
Proof.
  intros Hf. pose proof (get_weather_data_fallback weather_api lat lon u w Hf)
    as (_ & _ & H).
  destruct (dummy_dates (clock w)) as [dates|e'] eqn:Ed.
  - left. destruct (H dates eq_refl) as (df & rng' & Hdf & E).
    exists dates, df, rng'. split; [reflexivity|]. split; [|exact E].
    intros k. exact (dummy_frame_rng _ _ _ _ _ Hdf k).
  - right. apply dummy_dates_raise in Ed as Ee. subst e'.
    apply try_block_raise in Hf as (l & e & Ht & Hl).
    unfold get_weather_data, today_, run_locals, try_except.
    unfold mbind, M_bind, bind. rewrite Ht.
    unfold except_block, mbind, M_bind, bind, lift_result.
    rewrite Ed. reflexivity.
Qed.

(** The fetch either fails or succeeds with explicit tables. *)
Lemma fetch_cases (lat lon : Q) (u : string) (w : world) :
  fetch_fails weather_api lat lon u w
  \/ exists r rs d h,
       weather_api (api_calls w) (request lat lon u) = Return (r :: rs)
       /\ decode_daily (Daily r) = Return d
       /\ decode_hourly (Hourly r) = Return h.
Proof.
  unfold fetch_fails, try_block.
  unfold mbind, M_bind, bind, lift, lift_result, call_weather_api.
  cbn [fst snd].
  destruct (weather_api (api_calls w) (request lat lon u)) as [[|r rs]|e].
  - left. exact I.
  - cbn. destruct (decode_daily (Daily r)) as [d|e] eqn:Ed; [|left; exact I].
    cbn. destruct (decode_hourly (Hourly r)) as [h|e] eqn:Eh; [|left; exact I].
    right. by exists r, rs, d, h.
  - left. exact I.
Qed.

(** After a normal return both files hold the returned tables. *)
Lemma normal_return_data (lat lon : Q) (u : string) (w w' : world) (d h : frame) :
  get_weather_data weather_api lat lon u w = (w', Return (d, h)) ->
  files w' !! data_file u "daily" (clock w) = Some d
  /\ files w' !! data_file u "hourly" (clock w) = Some h
  /\ clock w' = clock w.
Proof.
  intros E. destruct (fetch_cases lat lon u w) as [Hf|(r & rs & d' & h' & Ha & Hd & Hh)].
  - apply get_weather_data_fallback in Hf as (Hr & _). rewrite E in Hr. done.
  - rewrite (get_weather_data_success weather_api lat lon u w (r :: rs) r d' h')
      in E by done.
    injection E as <- <- <-. cbn [files set_files called clock].
    rewrite lookup_insert_eq.
    rewrite lookup_insert_ne by apply daily_hourly_distinct.
    by rewrite lookup_insert_eq.
Qed.


(** A fetch leaves every file but today's two alone. *)
Lemma get_weather_data_other_files (lat lon : Q) (u : string) (w : world) (n : string) :
  n <> data_file u "daily" (clock w) -> n <> data_file u "hourly" (clock w) ->
  files (get_weather_data weather_api lat lon u w).1 !! n = files w !! n.
Proof.
  intros Hd Hh.
  destruct (fetch_cases lat lon u w) as [Hf|(r & rs & d & h & Ha & Hd' & Hh')].
  - destruct (get_weather_data_failure lat lon u w Hf)
      as [(dates & df & rng' & _ & _ & ->)| ->]; cbn [fst files called];
      [by rewrite lookup_insert_ne|done].
  - rewrite (get_weather_data_success weather_api lat lon u w (r :: rs) r d h)
      by done.
    cbn [fst files set_files called]. by rewrite !lookup_insert_ne.
Qed.

(** X5: a call of [get_weather_data] changes no file other than the two it
    names: every other entry of the directory is as before, whether the
    fetch succeeds or fails; and when the fetch fails, the hourly file is
    not written either. *)
Theorem get_weather_data_touches_two_files
    (lat lon : Q) (u : string) (w : world) :
  (forall n, n ∉ written_names u (clock w) ->
     files (get_weather_data weather_api lat lon u w).1 !! n = files w !! n)
  /\ (fetch_fails weather_api lat lon u w ->
      files (get_weather_data weather_api lat lon u w).1
        !! data_file u "hourly" (clock w)
      = files w !! data_file u "hourly" (clock w)).
Proof.
  pose proof (daily_hourly_distinct u (clock w)) as Hne.
  split.
  - intros n Hn. unfold written_names in Hn.
    apply not_elem_of_cons in Hn as [Hd Hn].
    apply not_elem_of_cons in Hn as [Hh _].
    by apply get_weather_data_other_files.
  - intros Hf. destruct (get_weather_data_failure lat lon u w Hf)
      as [(dates & df & rng' & _ & _ & ->)| ->]; cbn [fst files called];
      [by rewrite lookup_insert_ne|done].
Qed.

(** X6: when the fetch fails on an ordinary day, the handler consumes
    exactly 418 raw draws (eleven columns of 38 cells): afterwards the
    random source continues with the 419th draw. *)
Theorem fallback_consumes_418_draws
    (lat lon : Q) (u : string) (w : world) :
  fetch_fails weather_api lat lon u w ->
  31 < toordinal (clock w) -> toordinal (clock w) + 6 <= MAXORDINAL ->
  forall k, rng (get_weather_data weather_api lat lon u w).1 k
            = rng w (418 + k)%nat.
Proof.
  intros Hf Hlo Hhi k.
  destruct (get_weather_data_failure lat lon u w Hf)
    as [(dates & df & rng' & Ed & Hrng & ->)|E].
  - cbn [fst rng]. rewrite Hrng.
    rewrite (dummy_dates_spec _ Hlo Hhi) in Ed. injection Ed as <-.
    reflexivity.
  - exfalso. pose proof (dummy_dates_spec _ Hlo Hhi) as Ed.
    destruct (get_weather_data_fallback weather_api lat lon u w Hf) as (_ & _ & H).
    destruct (H _ Ed) as (df & rng' & _ & E'). rewrite E in E'. done.
Qed.

End Whole.


Lemma get_weather_data_touches_two_files_witness :
  files (get_weather_data provider_down default_latitude default_longitude
           "imperial" four_files).1 !! "imperial_daily_data_2024-02-28.csv"%string
  = files four_files !! "imperial_daily_data_2024-02-28.csv"%string
  /\ files (get_weather_data provider_down default_latitude default_longitude
              "imperial" four_files).1
       !! data_file "imperial" "hourly" (clock four_files)
     = files four_files !! data_file "imperial" "hourly" (clock four_files).
Proof.
  split.
  - apply (proj1 (get_weather_data_touches_two_files provider_down
                    default_latitude default_longitude "imperial" four_files)).
    unfold written_names. rewrite !not_elem_of_cons.
    split; [|split]; [| |apply not_elem_of_nil];
      intros E; vm_compute in E; discriminate.
  - apply (proj2 (get_weather_data_touches_two_files provider_down
                    default_latitude default_longitude "imperial" four_files)).
    exact I.
Defined.

Lemma fallback_consumes_418_draws_witness :
  rng (get_weather_data provider_down default_latitude default_longitude
         "imperial" skewed_world).1 0%nat
  = rng skewed_world 418%nat.
Proof.
  apply (fallback_consumes_418_draws provider_down default_latitude
           default_longitude "imperial" skewed_world).
  - exact I.
  - reflexivity.
  - vm_compute. discriminate.
Defined.

(** ** The callers *)


Lemma date_ltb_irrefl (a : date) : Date.ltb a a = false.
Proof.
  unfold Date.ltb. rewrite !Z.ltb_irrefl, !Z.eqb_refl. reflexivity.
Qed.

(** The sweep keeps today's file of a unit system without an underscore. *)
Lemma cleanup_keeps_today (w : world) (u g : string) :
  has_char "_" u = false -> has_char "_" g = false -> valid (clock w) ->
  files (cleanup_old_data_files w).1 !! data_file u g (clock w)
  = files w !! data_file u g (clock w).
Proof.
  intros Hu Hg Hv. destruct (cleanup_spec w) as (fs' & -> & Hfs).
  cbn [fst files set_files]. rewrite Hfs. unfold stale.
  rewrite (file_date_data_file u g _ Hu Hg Hv), date_ltb_irrefl, andb_false_r.
  reflexivity.
Qed.

Section Refresh.

Variable weather_api : nat -> params -> py_result (list response).

Lemma update_dashboard_miss_run (g : globals) (u : string) (w : world) :
  files w !! data_file u "daily" (today g) = None
  \/ files w !! data_file u "hourly" (today g) = None ->
  update_dashboard weather_api g u w
  = ('(d, h) ← get_weather_data weather_api default_latitude default_longitude u;
     cleanup_old_data_files;; mret (mkglobals (today g) d h)) w.
Proof.
  intros Hmiss. unfold update_dashboard, path_exists.
  unfold mbind at 1 2, M_bind at 1 2, bind at 1 2.
  destruct (files w !! data_file u "daily" (today g)) as [d|] eqn:Ed.
  - destruct Hmiss as [|Hh]; [done|].
    rewrite bool_decide_eq_true_2 by eauto. cbn [fst snd]. rewrite Hh.
    rewrite bool_decide_eq_false_2 by (by intros [? ?]). reflexivity.
  - rewrite bool_decide_eq_false_2 by (by intros [? ?]). reflexivity.
Qed.



(** After a refresh that had to fetch and returned, the directory is the
    one the fetch left, swept. *)
Lemma refresh_sweeps (g g1 : globals) (u : string) (w w1 : world) :
  files w !! data_file u "daily" (today g) = None
  \/ files w !! data_file u "hourly" (today g) = None ->
  update_dashboard weather_api g u w = (w1, Return g1) ->
  today g1 = today g
  /\ api_calls w1 = S (api_calls w)
  /\ forall n, files w1 !! n
       = if swept n && stale (clock w) n then None
         else files (get_weather_data weather_api default_latitude
                       default_longitude u w).1 !! n.
Proof.
  intros Hmiss E.
  pose proof (update_dashboard_miss weather_api g u w Hmiss) as Hcalls.
  rewrite E in Hcalls. cbn [fst] in Hcalls.
  rewrite update_dashboard_miss_run in E by auto. revert E.
  unfold mbind, M_bind, bind.
  destruct (get_weather_data weather_api default_latitude default_longitude u w)
    as [w' [[d' h']|e]] eqn:Eg; [|done].
  apply normal_return_data in Eg as (_ & _ & Hc).
  destruct (cleanup_spec w') as (fs' & -> & Hfs).
  intros [= <- <-]. cbn [files set_files today fst].
  split; [reflexivity|]. split; [exact Hcalls|].
  intros n. rewrite Hfs, Hc. reflexivity.
Qed.

Lemma swept_data_file (u g : string) (d : date) :
  u ∈ ["imperial"; "metric"]%string -> g ∈ ["daily"; "hourly"]%string ->
  has_char "_" u = false /\ has_char "_" g = false
  /\ swept (data_file u g d) = true.
Proof.
  intros Hu Hg.
  apply elem_of_cons in Hu as [->|Hu];
    [|apply elem_of_cons in Hu as [->|Hu]; [|by apply elem_of_nil in Hu]];
  (apply elem_of_cons in Hg as [->|Hg];
    [|apply elem_of_cons in Hg as [->|Hg]; [|by apply elem_of_nil in Hg]]);
  (split; [reflexivity|]); (split; [reflexivity|]);
  unfold swept, cleanup_patterns; cbn [existsb].
  - rewrite (fnmatch_data_file "imperial" "daily") by reflexivity. reflexivity.
  - rewrite (fnmatch_data_file "imperial" "hourly") by reflexivity.
    apply orb_true_r.
  - rewrite (fnmatch_data_file "metric" "daily") by reflexivity.
    rewrite !orb_true_r. reflexivity.
  - rewrite (fnmatch_data_file "metric" "hourly") by reflexivity.
    rewrite !orb_true_r. reflexivity.
Qed.

(** X9: after a refresh that had to fetch and returned, no cache file of
    an earlier day is left, for either unit system and either granularity:
    the callback sweeps right after the fetch. *)
Theorem refresh_leaves_no_stale_file
    (g g1 : globals) (u : string) (w w1 : world) (u' g' : string) (d : date) :
  files w !! data_file u "daily" (today g) = None
  \/ files w !! data_file u "hourly" (today g) = None ->
  update_dashboard weather_api g u w = (w1, Return g1) ->
  u' ∈ ["imperial"; "metric"]%string -> g' ∈ ["daily"; "hourly"]%string ->
  valid d -> Date.lt d (clock w) ->
  files w1 !! data_file u' g' d = None.
Proof.
  intros Hmiss E Hu' Hg' Hv Hlt.
  destruct (refresh_sweeps g g1 u w w1 Hmiss E) as (_ & _ & ->).
  destruct (swept_data_file u' g' d Hu' Hg') as (Hnu & Hng & ->).
  unfold stale. rewrite (file_date_data_file u' g' d Hnu Hng Hv), Hlt.
  reflexivity.
Qed.

(** X10: the module-level [today] is set once, when the module is loaded,
    while the fetch names its files after the day of the call.  Once the
    day has changed, a refresh that has to fetch leaves no file with the
    module's date (the janitor removes them as old), so the next refresh
    of that unit system calls the provider again: from then on the cache
    of the dashboard callback never hits. *)
Theorem refresh_after_midnight_fetches_again
    (g g1 : globals) (u : string) (w w1 : world) :
  Date.lt (today g) (clock w) -> valid (today g) ->
  u ∈ ["imperial"; "metric"]%string ->
  files w !! data_file u "daily" (today g) = None
  \/ files w !! data_file u "hourly" (today g) = None ->
  update_dashboard weather_api g u w = (w1, Return g1) ->
  files w1 !! data_file u "daily" (today g1) = None
  /\ files w1 !! data_file u "hourly" (today g1) = None
  /\ api_calls (update_dashboard weather_api g1 u w1).1 = S (S (api_calls w)).
Proof.
  intros Hlt Hv Hu Hmiss E.
  destruct (refresh_sweeps g g1 u w w1 Hmiss E) as (-> & Hcalls & Hfs).
  assert (Hgone : forall g', g' ∈ ["daily"; "hourly"]%string ->
                    files w1 !! data_file u g' (today g) = None).
  { intros g' Hg'. rewrite Hfs.
    destruct (swept_data_file u g' (today g) Hu Hg') as (Hnu & Hng & ->).
    unfold stale. rewrite (file_date_data_file u g' _ Hnu Hng Hv), Hlt.
    reflexivity. }
  assert (Hd : files w1 !! data_file u "daily" (today g) = None).
  { apply Hgone, elem_of_cons. by left. }
  split; [exact Hd|]. split.
  - apply Hgone, elem_of_cons. right. apply elem_of_cons. by left.
  - rewrite <- Hcalls. apply update_dashboard_miss. left.
    destruct (refresh_sweeps g g1 u w w1 Hmiss E) as (-> & _ & _). exact Hd.
Qed.

(** X11: when the provider is down at start-up (and the directory has no
    [daily_data_<today>.csv]), the module-level block ends in an exception,
    so the module does not load; the janitor is not run, and no file other
    than today's imperial daily file is changed. *)
Theorem startup_fails_when_provider_down (w : world) :
  files w !! ("daily_data_" +:+ isoformat (clock w) +:+ ".csv") = None ->
  fetch_fails weather_api default_latitude default_longitude "imperial" w ->
  raises (startup weather_api w).2
  /\ forall n, n <> data_file "imperial" "daily" (clock w) ->
       files (startup weather_api w).1 !! n = files w !! n.
Proof.
  intros Hnone Hf.
  assert (Hw : exists w' e,
    startup weather_api w = (w', Raise e)
    /\ forall n, n <> data_file "imperial" "daily" (clock w) ->
         files w' !! n = files w !! n).
  { unfold startup, today_, path_exists.
    unfold mbind at 1 2 3, M_bind at 1 2 3, bind at 1 2 3. cbn [fst snd].
    rewrite Hnone. rewrite bool_decide_eq_false_2 by (by intros [? ?]).
    cbn [andb]. unfold mbind, M_bind, bind, mret, M_ret, ret.
    destruct (get_weather_data_failure weather_api _ _ "imperial" w Hf)
      as [(dates & df & rng' & _ & _ & ->)| ->]; eexists _, _;
      (split; [reflexivity|]); intros n Hn; cbn [files called];
      [by rewrite lookup_insert_ne|done]. }
  destruct Hw as (w' & e & -> & Hn). split; [exact I|exact Hn].
Qed.

(** X12: the hourly callback never removes a file: whatever was in the
    directory before [update_hourly_graphs] is in it afterwards (unlike
    [update_dashboard], it does not run the janitor). *)
Theorem hourly_callback_never_removes (g : globals) (u : string) (w : world) (n : string) :
  is_Some (files w !! n) ->
  is_Some (files (update_hourly_graphs weather_api g u w).1 !! n).
Proof.
  intros Hn. unfold update_hourly_graphs, path_exists, read_csv.
  unfold mbind at 1, M_bind at 1, bind at 1.
  destruct (files w !! data_file u "hourly" (today g)) as [h|] eqn:Eh.
  - rewrite bool_decide_eq_true_2 by eauto. cbn [negb].
    unfold mbind, M_bind, bind. rewrite Eh. exact Hn.
  - rewrite bool_decide_eq_false_2 by (by intros [? ?]). cbn [negb].
    unfold mbind, M_bind, bind.
    assert (Hk : is_Some (files (get_weather_data weather_api default_latitude
                                   default_longitude u w).1 !! n)).
    { destruct (fetch_cases weather_api default_latitude default_longitude u w)
        as [Hf|(r & rs & d & h & Ha & Hd & Hh)].
      - destruct (get_weather_data_failure weather_api _ _ u w Hf)
          as [(dates & df & rng' & _ & _ & ->)| ->]; cbn [fst files called];
          [|done].
        rewrite lookup_insert_is_Some. destruct (decide (data_file u "daily" (clock w) = n)); auto.
      - rewrite (get_weather_data_success weather_api _ _ u w (r :: rs) r d h) by done.
        cbn [fst files set_files called]. rewrite !lookup_insert_is_Some.
        destruct (decide (data_file u "daily" (clock w) = n)); [auto|].
        right. split; [done|].
        destruct (decide (data_file u "hourly" (clock w) = n)); auto. }
    destruct (get_weather_data weather_api default_latitude default_longitude u w)
      as [w' [[d h]|e]]; exact Hk.
Qed.

End Refresh.



Lemma refresh_leaves_no_stale_file_witness :
  exists w1 g1,
    update_dashboard provider_up (mkglobals sample_day [] []) "imperial" four_files
      = (w1, Return g1)
    /\ files w1 !! data_file "imperial" "daily" (mkdate 2024 2 29) = None.
Proof.
  assert (H : exists w1 g1,
             update_dashboard provider_up (mkglobals sample_day [] []) "imperial"
               four_files = (w1, Return g1))
    by (vm_compute; eauto).
  destruct H as (w1 & g1 & H). exists w1, g1. split; [exact H|].
  refine (refresh_leaves_no_stale_file provider_up (mkglobals sample_day [] []) g1
            "imperial" four_files w1 "imperial" "daily" (mkdate 2024 2 29)
            _ H _ _ eq_refl eq_refl).
  - right. reflexivity.
  - apply elem_of_cons. left. reflexivity.
  - apply elem_of_cons. left. reflexivity.
Defined.

Lemma startup_fails_when_provider_down_witness :
  raises (startup provider_down cached_world).2
  /\ files (startup provider_down cached_world).1
       !! data_file "imperial" "hourly" (clock cached_world)
     = files cached_world !! data_file "imperial" "hourly" (clock cached_world).
Proof.
  pose proof (startup_fails_when_provider_down provider_down cached_world
                eq_refl I) as [H1 H2].
  split; [exact H1|]. apply H2. apply not_eq_sym, daily_hourly_distinct.
Defined.

Lemma hourly_callback_never_removes_witness :
  is_Some (files (update_hourly_graphs provider_down (mkglobals sample_day [] [])
                    "metric" four_files).1
             !! "imperial_daily_data_2024-02-28.csv"%string).
Proof.
  apply (hourly_callback_never_removes provider_down (mkglobals sample_day [] [])
           "metric" four_files "imperial_daily_data_2024-02-28.csv").
  vm_compute. eauto.
Defined.

Lemma refresh_after_midnight_fetches_again_witness :
  exists w1 g1,
    update_dashboard provider_up (mkglobals (mkdate 2024 2 29) [] []) "imperial"
      fresh_world = (w1, Return g1)
    /\ files w1 !! data_file "imperial" "daily" (today g1) = None
    /\ files w1 !! data_file "imperial" "hourly" (today g1) = None
    /\ api_calls (update_dashboard provider_up g1 "imperial" w1).1 = 2%nat.
Proof.
  assert (H : exists w1 g1,
             update_dashboard provider_up (mkglobals (mkdate 2024 2 29) [] [])
               "imperial" fresh_world = (w1, Return g1))
    by (vm_compute; eauto).
  destruct H as (w1 & g1 & H). exists w1, g1. split; [exact H|].
  refine (refresh_after_midnight_fetches_again provider_up
            (mkglobals (mkdate 2024 2 29) [] []) g1 "imperial" fresh_world w1
            eq_refl eq_refl _ _ H).
  - apply elem_of_cons. left. reflexivity.
  - left. reflexivity.
Defined.

(** ** The views *)

Lemma date_eqb_eq (a b : date) : Date.eqb a b = true <-> a = b.
Proof.
  destruct a as [y m d], b as [y' m' d']. unfold Date.eqb. cbn [year month day].
  rewrite !andb_true_iff, !Z.eqb_eq. split.
  - intros [[-> ->] ->]. reflexivity.
  - intros [= -> -> ->]. done.
Qed.

Lemma keep_nil_r {A} (mask : list bool) : keep mask (@nil A) = [].
Proof. destruct mask as [|[] mask]; reflexivity. Qed.

Lemma keep_map_filter {A} (p : A -> bool) (l : list A) :
  keep (map p l) l = List.filter p l.
Proof.
  induction l as [|x l IH]; [reflexivity|].
  cbn [map keep List.filter]. rewrite IH. reflexivity.
Qed.

Lemma keep_map {A B} (f : A -> B) (mask : list bool) (l : list A) :
  keep mask (map f l) = map f (keep mask l).
Proof.
  revert l. induction mask as [|b mask IH]; intros [|x l]; try reflexivity.
  cbn [map keep]. destruct b; cbn [map]; rewrite IH; reflexivity.
Qed.

Lemma zip_nil_r {A B} (l : list A) : zip l (@nil B) = [].
Proof. by destruct l. Qed.

Lemma keep_zip {A B} (mask : list bool) (a : list A) (b : list B) :
  zip (keep mask a) (keep mask b) = keep mask (zip a b).
Proof.
  revert a b. induction mask as [|m mask IH]; intros a b.
  - destruct a, b; reflexivity.
  - destruct a as [|x a], b as [|y b].
    + reflexivity.
    + reflexivity.
    + cbn [keep]. apply zip_nil_r.
    + cbn [keep zip zip_with]. destruct m.
      * cbn [zip_with]. f_equal. apply IH.
      * apply IH.
Qed.

Lemma keep_fst_zip {A B} (p : A -> bool) (a : list A) (b : list B) :
  keep (map p a) (zip a b) = List.filter (fun xy => p xy.1) (zip a b).
Proof.
  revert b. induction a as [|x a IH]; intros [|y b]; try reflexivity.
  cbn [map keep zip zip_with List.filter fst]. fold (zip a b).
  rewrite IH. reflexivity.
Qed.

Lemma get_col_select_rows (name : string) (mask : list bool) (f : frame) :
  get_col name (select_rows mask f) = keep_column mask <$> get_col name f.
Proof.
  induction f as [|[k c] f IH]; [reflexivity|].
  cbn [select_rows map get_col fst snd]. destruct (String.eqb k name); [reflexivity|].
  exact IH.
Qed.

Lemma dt_date_keep (mask : list bool) (c : column) :
  dt_date (keep_column mask c) = keep mask <$> dt_date c.
Proof.
  destruct c as [l|l|l]; cbn [keep_column dt_date fmap option_fmap option_map];
    [reflexivity| |reflexivity].
  by rewrite keep_map.
Qed.

(** X13: the points of the hourly graph are the records of the selected
    day and no others.  Filtering the hourly table by day keeps the cells
    of a row together: the trace drawn from the filtered table holds
    exactly the (instant, temperature) pairs of the table whose instant
    falls on the selected day in UTC, in the order of the table. *)
Theorem trace_of_selected_day (selected : date) (hourly filtered : frame)
    (pts : list (Z * Q)) :
  trace hourly = Some pts ->
  rows_of_day selected hourly = Some filtered ->
  trace filtered
  = Some (List.filter (fun p => Date.eqb (of_epoch p.1) selected) pts).
Proof.
  unfold trace, rows_of_day. intros Ht Hf.
  destruct (get_col "date" hourly) as [[l|ts|l]|] eqn:Ex;
    cbn [mbind option_bind] in Ht, Hf; try done;
    try (by destruct (get_col "temperature_2m" hourly)).
  destruct (get_col "temperature_2m" hourly) as [[l|l|vs]|] eqn:Ey;
    cbn [mbind option_bind] in Ht; try done.
  injection Ht as <-. cbn [dt_date mbind option_bind] in Hf. injection Hf as <-.
  rewrite !get_col_select_rows, Ex, Ey.
  cbn [fmap option_fmap option_map keep_column mbind option_bind].
  rewrite keep_zip, map_map.
  rewrite (keep_fst_zip (fun t => Date.eqb (of_epoch t) selected)).
  reflexivity.
Qed.

Lemma trace_of_selected_day_witness :
  exists hourly filtered,
    decode_hourly two_hours = Return hourly
    /\ rows_of_day (mkdate 1970 1 1) hourly = Some filtered
    /\ trace filtered = Some [(0, 70.123%Q); (3600, 70.5%Q)].
Proof.
  assert (H : exists hourly filtered pts,
             decode_hourly two_hours = Return hourly
             /\ trace hourly = Some pts
             /\ rows_of_day (mkdate 1970 1 1) hourly = Some filtered
             /\ List.filter (fun p => Date.eqb (of_epoch p.1) (mkdate 1970 1 1)) pts
                = [(0, 70.123%Q); (3600, 70.5%Q)]).
  { eexists _, _, _. split; [reflexivity|]. split; [reflexivity|].
    split; reflexivity. }
  destruct H as (hourly & filtered & pts & Hd & Ht & Hf & Hp).
  exists hourly, filtered. split; [exact Hd|]. split; [exact Hf|].
  rewrite <- Hp. exact (trace_of_selected_day _ hourly filtered pts Ht Hf).
Defined.

(** *** The list of days *)

Lemma unique_step_spec (l seen : list date) :
  NoDup seen ->
  NoDup (foldl (fun seen d => if existsb (Date.eqb d) seen then seen
                              else seen ++ [d]) seen l)
  /\ forall d, d ∈ foldl (fun seen d => if existsb (Date.eqb d) seen then seen
                                        else seen ++ [d]) seen l
               <-> d ∈ seen \/ d ∈ l.
Proof.
  revert seen. induction l as [|x l IH]; intros seen Hnd; cbn [foldl].
  - split; [exact Hnd|]. intros d. rewrite elem_of_nil. tauto.
  - destruct (existsb (Date.eqb x) seen) eqn:Ex.
    + destruct (IH seen Hnd) as [H1 H2]. split; [exact H1|].
      intros d. rewrite H2, elem_of_cons.
      apply existsb_exists in Ex as (y & Hy & Heq).
      apply date_eqb_eq in Heq as ->. apply list_elem_of_In in Hy.
      split; [tauto|]. intros [?|[->|?]]; tauto.
    + assert (Hx : x ∉ seen).
      { intros Hin. apply list_elem_of_In in Hin.
        assert (existsb (Date.eqb x) seen = true); [|congruence].
        apply existsb_exists. exists x. split; [exact Hin|by apply date_eqb_eq]. }
      destruct (IH (seen ++ [x])) as [H1 H2].
      { apply NoDup_app. split; [exact Hnd|]. split.
        - intros y Hy Hy'. apply list_elem_of_singleton in Hy' as ->. done.
        - apply NoDup_singleton. }
      split; [exact H1|]. intros d.
      rewrite H2, elem_of_app, list_elem_of_singleton, elem_of_cons. tauto.
Qed.

(** X14: the days offered for the hourly graph.  For an hourly table with
    a date column, [unique_days] lists each calendar day (in UTC) of the
    table that is not before today exactly once: the list has no
    duplicates, and a day is in it exactly when some row of the table
    falls on that day and the day is today or later. *)
Theorem unique_days_spec (today : date) (hourly : frame) (c : column)
    (days : list date) :
  get_col "date" hourly = Some c -> dt_date c = Some days ->
  exists l, unique_days today hourly = Some l
            /\ NoDup l
            /\ forall d, d ∈ l <-> d ∈ days /\ Date.le today d.
Proof.
  intros Hc Hd. unfold unique_days.
  rewrite Hc. cbn [mbind option_bind]. rewrite Hd. cbn [mbind option_bind].
  rewrite get_col_select_rows, Hc. cbn [fmap option_fmap option_map mbind option_bind].
  rewrite dt_date_keep, Hd. cbn [fmap option_fmap option_map mbind option_bind].
  rewrite (keep_map_filter (fun d => negb (Date.ltb d today))).
  eexists. split; [reflexivity|]. unfold unique.
  destruct (unique_step_spec
              (List.filter (fun d => negb (Date.ltb d today)) days) [])
    as [H1 H2]; [apply NoDup_nil_2|].
  split; [exact H1|]. intros d. rewrite H2, elem_of_nil, list_elem_of_In.
  rewrite filter_In, <- list_elem_of_In, negb_true_iff. unfold Date.le. tauto.
Qed.

Lemma unique_days_spec_witness :
  exists l, unique_days (mkdate 1970 1 1)
              [("date"%string, Stamps [0; 3600; 86400; 90000]);
               ("temperature_2m"%string, Floats [1; 2; 3; 4]%Q)] = Some l
            /\ NoDup l
            /\ forall d, d ∈ l <-> d ∈ map of_epoch [0; 3600; 86400; 90000]
                                   /\ Date.le (mkdate 1970 1 1) d.
Proof.
  exact (unique_days_spec (mkdate 1970 1 1)
           [("date"%string, Stamps [0; 3600; 86400; 90000]);
            ("temperature_2m"%string, Floats [1; 2; 3; 4]%Q)]
           (Stamps [0; 3600; 86400; 90000]) _ eq_refl eq_refl).
Defined.

(** *** The summary cards *)

Lemma keep_mask_none {A} (mask : list bool) (l : list A) :
  Forall (fun b => b = false) mask -> keep mask l = [].
Proof.
  revert l. induction mask as [|b mask IH]; intros l Hm; [by destruct l|].
  apply Forall_cons in Hm as [-> Hm]. destruct l as [|x l]; [reflexivity|].
  cbn [keep]. by apply IH.
Qed.

Lemma keep_first {A} (mask : list bool) (l : list A) (i : nat) :
  mask !! i = Some true ->
  (forall j, (j < i)%nat -> mask !! j = Some false) ->
  keep mask l !! 0%nat = l !! i.
Proof.
  revert l i. induction mask as [|b mask IH]; intros l i Hi Hj; [done|].
  destruct i as [|i].
  - injection Hi as ->. destruct l as [|x l]; reflexivity.
  - pose proof (Hj 0%nat ltac:(lia)) as H0. injection H0 as ->.
    destruct l as [|x l]; [reflexivity|]. cbn [keep lookup list_lookup].
    apply IH; [exact Hi|]. intros j Hlt. apply (Hj (S j)). lia.
Qed.

Lemma col_len_keep (mask : list bool) (c : column) :
  col_len (keep_column mask c)
  = match c with
    | Dates l => length (keep mask l)
    | Stamps l => length (keep mask l)
    | Floats l => length (keep mask l)
    end.
Proof. destruct c; reflexivity. Qed.

Lemma keep_length_pos {A} (mask : list bool) (l : list A) (i : nat) :
  mask !! i = Some true -> (i < length l)%nat -> (0 < length (keep mask l))%nat.
Proof.
  revert l i. induction mask as [|b mask IH]; intros l i Hi Hl; [done|].
  destruct l as [|x l]; [cbn in Hl; lia|].
  destruct i as [|i].
  - injection Hi as ->. cbn. lia.
  - cbn [keep]. destruct b; [cbn; lia|].
    apply (IH l i); [exact Hi|cbn in Hl; lia].
Qed.

Lemma cell_select_rows (name : string) (mask : list bool) (f : frame) (i : nat) :
  mask !! i = Some true ->
  (forall j, (j < i)%nat -> mask !! j = Some false) ->
  cell name 0 (select_rows mask f) = cell name i f.
Proof.
  intros Hi Hj. unfold cell. rewrite get_col_select_rows.
  destruct (get_col name f) as [[l|l|l]|];
    cbn [fmap option_fmap option_map mbind option_bind keep_column]; try reflexivity.
  by apply keep_first.
Qed.

(** X15: the summary cards show the first row of the selected day.  For a
    table whose columns all have one cell per date: when no row has the
    selected date the summary is the "no data" message for that date;
    otherwise the three figures are read from the first row with that
    date, also when several rows have it. *)
Theorem daily_summary_first_row (selected : date) (daily : frame) (c : column)
    (days : list date) :
  get_col "date" daily = Some c -> dt_date c = Some days ->
  rectangular (length days) daily ->
  (selected ∉ days -> daily_summary selected daily = Some (NoData selected))
  /\ forall i,
       days !! i = Some selected ->
       (forall j, (j < i)%nat -> days !! j <> Some selected) ->
       daily_summary selected daily
       = (max_temp ← cell "temperature_2m_max" i daily;
          max_wind ← cell "wind_speed_10m_max" i daily;
          mean_humidity ← cell "relative_humidity_2m_mean" i daily;
          Some (Cards max_temp max_wind mean_humidity)).
Proof.
  intros Hc Hd Hrect. unfold daily_summary.
  rewrite Hc. cbn [mbind option_bind]. rewrite Hd. cbn [mbind option_bind].
  set (mask := map (fun d => Date.eqb d selected) days).
  destruct daily as [|[k0 c0] rest]; [done|].
  assert (Hlen0 : col_len c0 = length days).
  { by apply Forall_cons in Hrect as [? _]. }
  split.
  - intros Hnot.
    assert (Hmask : Forall (fun b => b = false) mask).
    { unfold mask. apply Forall_map, Forall_forall. intros d Hin. cbn.
      destruct (Date.eqb d selected) eqn:E; [|reflexivity].
      apply date_eqb_eq in E as ->. done. }
    cbn [select_rows map n_rows fst snd]. rewrite col_len_keep.
    destruct c0; rewrite keep_mask_none by exact Hmask; reflexivity.
  - intros i Hi Hfirst.
    assert (Hmi : mask !! i = Some true).
    { unfold mask. rewrite list_lookup_fmap, Hi. cbn.
      f_equal. by apply date_eqb_eq. }
    assert (Hmj : forall j, (j < i)%nat -> mask !! j = Some false).
    { intros j Hlt. unfold mask. rewrite list_lookup_fmap.
      pose proof (lookup_lt_Some _ _ _ Hi) as Hil.
      destruct (lookup_lt_is_Some_2 days j ltac:(lia)) as [d Hdj].
      rewrite Hdj. cbn. f_equal.
      destruct (Date.eqb d selected) eqn:E; [|reflexivity].
      apply date_eqb_eq in E as ->. by destruct (Hfirst j Hlt). }
    assert (Hpos : (0 < n_rows (select_rows mask ((k0, c0) :: rest)))%nat).
    { cbn [select_rows map n_rows fst snd]. rewrite col_len_keep.
      pose proof (lookup_lt_Some _ _ _ Hi) as Hil.
      destruct c0; cbn [col_len] in Hlen0;
        apply (keep_length_pos mask _ i Hmi); lia. }
    destruct (Nat.eqb_spec (n_rows (select_rows mask ((k0, c0) :: rest))) 0);
      [lia|].
    rewrite !(cell_select_rows _ mask _ i Hmi Hmj). reflexivity.
Qed.

Lemma daily_summary_first_row_witness :
  exists df,
    decode_daily two_days = Return df
    /\ daily_summary (mkdate 1970 1 3) df = Some (NoData (mkdate 1970 1 3))
    /\ daily_summary (mkdate 1970 1 2) df
       = (max_temp ← cell "temperature_2m_max" 1 df;
          max_wind ← cell "wind_speed_10m_max" 1 df;
          mean_humidity ← cell "relative_humidity_2m_mean" 1 df;
          Some (Cards max_temp max_wind mean_humidity)).
Proof.
  assert (H : exists df, decode_daily two_days = Return df
                         /\ get_col "date" df
                            = Some (Dates [mkdate 1970 1 1; mkdate 1970 1 2])
                         /\ rectangular 2 df).
  { eexists. split; [reflexivity|]. split; [reflexivity|].
    repeat constructor. }
  destruct H as (df & Hdf & Hc & Hr). exists df. split; [exact Hdf|].
  pose proof (daily_summary_first_row (mkdate 1970 1 2) df _ _ Hc eq_refl Hr)
    as [_ H2].
  pose proof (daily_summary_first_row (mkdate 1970 1 3) df _ _ Hc eq_refl Hr)
    as [H3 _].
  split.
  - apply H3. intros Hin.
    apply elem_of_cons in Hin as [Hin|Hin]; [discriminate|].
    apply elem_of_cons in Hin as [Hin|Hin]; [discriminate|].
    by apply elem_of_nil in Hin.
  - apply (H2 1%nat); [reflexivity|].
    intros [|j] Hlt; [discriminate|lia].
Defined.

(** ** Decoding *)








(** X17: with a daily interval the decoded daily table has one row per
    calendar day, without gaps or repeats: the date of row [i] is the day
    [i] days after the (UTC) day of the provider's start instant. *)
Theorem decode_daily_consecutive_days (s : series) (df : frame) :
  Interval s = 86400 ->
  1 <= EPOCH_ORDINAL + Time s / 86400 ->
  decode_daily s = Return df ->
  exists days, get_col "date" df = Some (Dates days)
    /\ length days = instants s
    /\ forall i d, days !! i = Some d ->
         toordinal d = toordinal (of_epoch (Time s)) + Z.of_nat i.
Proof.
  intros Hi Hlo E. unfold decode_daily in E.
  destruct (date_range_positive s ltac:(lia)) as (stamps & Hs & Hlen).
  pose proof Hs as Hs'. unfold date_range in Hs'.
  destruct (Z.leb_spec (Interval s) 0) as [|_]; [lia|]. injection Hs' as Hst.
  rewrite Hs in E. unfold mbind at 1, py_result_bind at 1 in E.
  destruct (rounded_columns s 0 daily_variables) as [cols|e]; [|done].
  unfold mbind, py_result_bind, DataFrame in E.
  destruct (forallb _ cols); [|done]. injection E as <-.
  exists (map of_epoch stamps). split; [reflexivity|].
  split; [by rewrite length_map|].
  intros i d Hd. rewrite list_lookup_fmap in Hd.
  destruct (stamps !! i) as [t|] eqn:Et; [|done]. injection Hd as <-.
  rewrite <- Hst in Et. rewrite list_lookup_fmap in Et.
  destruct (seq 0 _ !! i) as [k|] eqn:Ek; [|done]. injection Et as <-.
  apply lookup_seq in Ek as [-> _]. cbn [Nat.add].
  unfold of_epoch. rewrite Hi, Z.div_add by lia.
  rewrite !toordinal_fromordinal by lia. lia.
Qed.

Lemma decode_daily_consecutive_days_witness :
  exists df days,
    decode_daily two_days = Return df
    /\ get_col "date" df = Some (Dates days)
    /\ length days = instants two_days
    /\ forall i d, days !! i = Some d ->
         toordinal d = toordinal (of_epoch (Time two_days)) + Z.of_nat i.
Proof.
  assert (H : exists df, decode_daily two_days = Return df)
    by (eexists; reflexivity).
  destruct H as (df & H).
  assert (H1 : 1 <= EPOCH_ORDINAL + Time two_days / 86400) by (vm_compute; discriminate).
  destruct (decode_daily_consecutive_days two_days df eq_refl H1 H)
    as (days & Hd).
  exists df, days. split; [exact H|exact Hd].
Defined.

(** X18: the decoded hourly table.  When the hourly table is built (for a
    positive interval), it has one record per instant: record [k] pairs the
    instant [Time + k * Interval] with the [k]-th value the provider sent
    for the first hourly variable, unchanged; every instant lies in the
    half-open window from [Time] to [TimeEnd]. *)
Theorem decode_hourly_records (s : series) (f : frame) :
  0 < Interval s ->
  decode_hourly s = Return f ->
  exists v pts,
    Variables s !! 0%nat = Some v
    /\ trace f = Some pts
    /\ length pts = instants s /\ length v = instants s
    /\ forall k t x, pts !! k = Some (t, x) ->
         t = Time s + Z.of_nat k * Interval s
         /\ Time s <= t < TimeEnd s
         /\ v !! k = Some x.
Proof.
  intros Hpos E. unfold decode_hourly in E.
  destruct (date_range_positive s Hpos) as (stamps & Hs & Hlen).
  pose proof Hs as Hs'. unfold date_range in Hs'.
  destruct (Z.leb_spec (Interval s) 0) as [|_]; [lia|]. injection Hs' as Hst.
  rewrite Hs in E. unfold mbind at 1, py_result_bind at 1 in E.
  unfold values in E. destruct (Variables s !! 0%nat) as [v|]; [|done].
  unfold mbind, py_result_bind, DataFrame in E.
  cbn [forallb col_len snd andb] in E.
  destruct (Nat.eqb_spec (length v) (length stamps)) as [Hv|]; [|done].
  cbn [andb] in E. injection E as <-.
  exists v, (zip stamps v). split; [reflexivity|]. split; [reflexivity|].
  split; [rewrite length_zip_with; lia|]. split; [lia|].
  intros k t x Hk.
  apply lookup_zip_with_Some in Hk as (t' & x' & [= <- <-] & Ht & Hx).
  rewrite <- Hst in Ht. rewrite list_lookup_fmap in Ht.
  destruct (seq 0 _ !! k) as [k'|] eqn:Ek; [|done]. injection Ht as <-.
  apply lookup_seq in Ek as [-> Hk]. cbn [Nat.add].
  split; [reflexivity|]. split; [|exact Hx].
  fold (instants s) in Hk. unfold instants in Hk.
  assert (Hq : Z.of_nat k < (TimeEnd s - Time s + Interval s - 1) / Interval s).
  { lia. }
  pose proof (Z.div_mod (TimeEnd s - Time s + Interval s - 1) (Interval s)
                ltac:(lia)) as Hdm.
  pose proof (Z.mod_pos_bound (TimeEnd s - Time s + Interval s - 1) (Interval s)
                Hpos) as Hmb.
  nia.
Qed.

Lemma decode_hourly_records_witness :
  exists f pts,
    decode_hourly two_hours = Return f
    /\ trace f = Some pts
    /\ length pts = 2%nat
    /\ forall k t x, pts !! k = Some (t, x) ->
         t = Z.of_nat k * 3600 /\ 0 <= t < 7200.
Proof.
  assert (H : exists f, decode_hourly two_hours = Return f)
    by (eexists; reflexivity).
  destruct H as (f & H).
  assert (Hpos : 0 < Interval two_hours) by reflexivity.
  destruct (decode_hourly_records two_hours f Hpos H)
    as (v & pts & _ & Ht & Hl & _ & Hk).
  exists f, pts. split; [exact H|]. split; [exact Ht|]. split; [exact Hl|].
  intros k t x Hp. destruct (Hk k t x Hp) as (E & B & _).
  split; [exact E|exact B].
Defined.

(** ** When the handler runs, and the first rendering after start-up *)

Lemma imperial_metric_distinct (g1 g2 : string) (t1 t2 : date) :
  data_file "metric" g1 t1 <> data_file "imperial" g2 t2.
Proof. unfold data_file. intros H. discriminate. Qed.

Section Load.

Variable weather_api : nat -> params -> py_result (list response).


Lemma startup_fetch_run (w : world) :
  files w !! ("daily_data_" +:+ isoformat (clock w) +:+ ".csv") = None ->
  startup weather_api w
  = ('(d, h) ← get_weather_data weather_api default_latitude default_longitude
                 "imperial";
     cleanup_old_data_files;;
     mret (mkglobals (clock w) (to_datetime d) (to_datetime h))) w.
Proof.
  intros Hnone. unfold startup, today_, path_exists.
  unfold mbind at 1 2 3, M_bind at 1 2 3, bind at 1 2 3. cbn [fst snd].
  rewrite Hnone. rewrite bool_decide_eq_false_2 by (by intros [? ?]).
  reflexivity.
Qed.

(** X20: the first rendering after a normal start-up.  When the module
    loads by fetching (no [daily_data_<today>.csv] in the directory) and
    the fetch returns, the provider has been called once and the imperial
    files of the day exist; so the first run of the dashboard callback for
    imperial units is served from them, without a second call.  For metric
    units, whose files the start-up never writes, the callback has to
    fetch when the directory had no metric daily file of the day. *)
Theorem first_rendering_after_startup (w w1 : world) (g1 : globals) :
  valid (clock w) ->
  files w !! ("daily_data_" +:+ isoformat (clock w) +:+ ".csv") = None ->
  startup weather_api w = (w1, Return g1) ->
  today g1 = clock w
  /\ api_calls w1 = S (api_calls w)
  /\ (update_dashboard weather_api g1 "imperial" w1).1 = w1
  /\ returns (update_dashboard weather_api g1 "imperial" w1).2
  /\ (files w !! data_file "metric" "daily" (clock w) = None ->
      api_calls (update_dashboard weather_api g1 "metric" w1).1
      = S (S (api_calls w))).
Proof.
  intros Hv Hnone E. rewrite (startup_fetch_run w Hnone) in E. revert E.
  unfold mbind, M_bind, bind.
  pose proof (get_weather_data_calls_once weather_api default_latitude
                default_longitude "imperial" w) as Hcalls.
  pose proof (get_weather_data_other_files weather_api default_latitude
                default_longitude "imperial" w
                (data_file "metric" "daily" (clock w))
                (imperial_metric_distinct _ _ _ _)
                (imperial_metric_distinct _ _ _ _)) as Hother.
  destruct (get_weather_data weather_api default_latitude default_longitude
              "imperial" w) as [w' [[d h]|e]] eqn:Eg; [|done].
  cbn [fst] in Hcalls, Hother.
  apply normal_return_data in Eg as (Hd & Hh & Hc).
  pose proof (cleanup_keeps_today w' "imperial" "daily" eq_refl eq_refl) as Kd.
  pose proof (cleanup_keeps_today w' "imperial" "hourly" eq_refl eq_refl) as Kh.
  destruct (cleanup_spec w') as (fs' & Ec & Hfs). rewrite Ec in Kd, Kh |- *.
  cbn [fst files set_files] in Kd, Kh.
  intros [= <- <-]. cbn [today files api_calls set_files].
  rewrite Hc in Kd, Kh. rewrite <- (Kd Hv) in Hd. rewrite <- (Kh Hv) in Hh.
  clear Kd Kh.
  split; [reflexivity|]. split; [exact Hcalls|].
  rewrite (update_dashboard_hit weather_api
             (mkglobals (clock w) (to_datetime d) (to_datetime h)) "imperial"
             (set_files (fun _ => fs') w') d h Hd Hh).
  split; [reflexivity|]. split; [exact I|].
  intros Hm.
  rewrite (update_dashboard_miss weather_api
             (mkglobals (clock w) (to_datetime d) (to_datetime h)) "metric"
             (set_files (fun _ => fs') w')).
  - cbn [api_calls set_files]. by rewrite Hcalls.
  - left. cbn [today files set_files]. rewrite Hfs.
    destruct (swept _ && stale _ _); [reflexivity|]. by rewrite Hother.
Qed.

End Load.

Lemma first_rendering_after_startup_witness :
  exists w1 g1,
    startup provider_up fresh_world = (w1, Return g1)
    /\ today g1 = sample_day
    /\ api_calls w1 = 1%nat
    /\ (update_dashboard provider_up g1 "imperial" w1).1 = w1
    /\ returns (update_dashboard provider_up g1 "imperial" w1).2
    /\ api_calls (update_dashboard provider_up g1 "metric" w1).1 = 2%nat.
Proof.
  assert (H : exists w1 g1, startup provider_up fresh_world = (w1, Return g1))
    by (vm_compute; eauto).
  destruct H as (w1 & g1 & H). exists w1, g1. split; [exact H|].
  assert (Hv : valid (clock fresh_world)) by reflexivity.
  assert (Hn : files fresh_world
                 !! ("daily_data_" +:+ isoformat (clock fresh_world) +:+ ".csv")
               = None) by reflexivity.
  destruct (first_rendering_after_startup provider_up fresh_world w1 g1 Hv Hn H)
    as (H1 & H2 & H3 & H4 & H5).
  split; [exact H1|]. split; [exact H2|]. split; [exact H3|].
  split; [exact H4|]. apply H5. reflexivity.
Defined.
